(** * Background remover (app.py): a shallow embedding and its properties

    The development follows [src/app.py].  The script runs in a world made
    of the working directory, the store behind [@st.cache_data] and the
    elements it has emitted; script code is a function from worlds to a
    result or an exception ([M]).

    Pillow, rembg, werkzeug and Streamlit are outside the repository.  The
    Pillow operations whose result the program depends on pixel by pixel
    ([convert], [getdata], [putdata], [crop]) are modelled in [Module Pil];
    [resize], [rotate], the decoding of an upload, [rembg.remove] and
    [secure_filename] are parameters of [Section App].  [Module Sample] holds
    one concrete choice of them, used to run the script on concrete
    uploads. *)

From Stdlib Require Import ZArith Strings.Ascii Strings.String Strings.Byte.
From stdpp Require Import base option list strings gmap.

Open Scope Z_scope.

(** ** Pillow images *)

Module Pil.

(** A pixel as [getdata] yields it for an "RGBA" image: the 4-tuple
    [(r, g, b, a)], written [((r, g, b), a)] so that [color + (255,)] of the
    source is the pair [(color, 255)]. *)
Definition Color : Type := Z * Z * Z.
Definition Pixel : Type := Color * Z.

(** [item[3]] *)
Definition alpha (item : Pixel) : Z := item.2.

Inductive Mode := RGB | RGBA.

(** Pillow keeps four bytes per pixel for both modes; in mode "RGB" the
    fourth byte is padding and carries no transparency. *)
Record Image := mkImage {
  mode : Mode;
  width : Z;
  height : Z;
  data : list Pixel
}.

Definition channel_ok (v : Z) : Prop := 0 <= v <= 255.
Definition valid_color (c : Color) : Prop :=
  channel_ok c.1.1 /\ channel_ok c.1.2 /\ channel_ok c.2.
Definition valid_pixel (p : Pixel) : Prop :=
  valid_color p.1 /\ channel_ok p.2.

(** What holds of every image read from a file: it has pixels, one per
    cell of the grid, and channels are bytes. *)
Definition valid_image (im : Image) : Prop :=
  0 < width im /\ 0 < height im /\
  Z.of_nat (length (data im)) = width im * height im /\
  Forall valid_pixel (data im).

(** An image of width or height 0, as [crop] can return one.  Pillow's
    encoders refuse it ("tile cannot extend outside image"), so it can be
    neither saved nor shown. *)
Definition no_pixels (im : Image) : bool :=
  (width im <=? 0) || (height im <=? 0).
#[global] Arguments no_pixels : simpl never.

(** [image.convert("RGBA")]: an "RGBA" image is copied, an "RGB" image
    gets alpha 255 everywhere. *)
Definition convert_RGBA (im : Image) : Image :=
  match mode im with
  | RGBA => im
  | RGB => mkImage RGBA (width im) (height im)
             (map (fun p : Pixel => (p.1, 255)) (data im))
  end.

(** [image.getdata()] *)
Definition getdata (im : Image) : list Pixel := data im.

(** Pillow stores each channel of a tuple through CLIP8. *)
Definition clip8 (v : Z) : Z :=
  if v <? 0 then 0 else if 255 <? v then 255 else v.

Definition clip_pixel (p : Pixel) : Pixel :=
  ((clip8 p.1.1.1, clip8 p.1.1.2, clip8 p.1.2), clip8 p.2).

(** [image.putdata(seq)]: the pixels are overwritten from the upper left
    corner on, as far as the sequence reaches. *)
Definition putdata (im : Image) (seq : list Pixel) : Image :=
  mkImage (mode im) (width im) (height im)
    (map clip_pixel (take (length (data im)) seq)
       ++ drop (length seq) (data im)).

(** The pixel at column [x], row [y]; outside the grid Pillow reads
    zeroes. *)
Definition getpixel (im : Image) (x y : Z) : Pixel :=
  if bool_decide (0 <= x < width im /\ 0 <= y < height im)
  then default ((0, 0, 0), 0) (data im !! Z.to_nat (y * width im + x))
  else ((0, 0, 0), 0).

Inductive CropError :=
| RightLessThanLeft
| LowerLessThanUpper.

(** [image.crop((left, upper, right, lower))].  Pillow refuses a box whose
    right edge is left of its left edge (or lower above upper) with
    ValueError, and otherwise returns the [right-left] by [lower-upper]
    region, row by row. *)
Definition crop (im : Image) (box : Z * Z * Z * Z) : CropError + Image :=
  let '(x0, y0, x1, y1) := box in
  if x1 <? x0 then inl RightLessThanLeft
  else if y1 <? y0 then inl LowerLessThanUpper
  else inr (mkImage (mode im) (x1 - x0) (y1 - y0)
              (y ← seqZ y0 (y1 - y0);
               x ← seqZ x0 (x1 - x0);
               [getpixel im x y])).

End Pil.

(** ** Python strings *)

Module Str.

Open Scope string_scope.

(** [s.split(sep)] for a one-character separator: never the empty list. *)
Fixpoint split (sep : ascii) (s : string) : list string :=
  match s with
  | EmptyString => [EmptyString]
  | String c s' =>
      if Ascii.eqb c sep then EmptyString :: split sep s'
      else match split sep s' with
           | h :: t => String c h :: t
           | [] => [String c EmptyString]
           end
  end.

(** [parts[0]] of a list that [split] returned. *)
Definition first (parts : list string) : string :=
  match parts with
  | h :: _ => h
  | [] => EmptyString
  end.

(** [sep in s] *)
Fixpoint contains (sep : ascii) (s : string) : bool :=
  match s with
  | EmptyString => false
  | String c s' => Ascii.eqb c sep || contains sep s'
  end.

(** [s.rsplit(sep, 1)]: cut at the last separator only. *)
Definition rsplit1 (sep : ascii) (s : string) : list string :=
  match reverse (split sep s) with
  | lst :: (_ :: _) as rest =>
      [String.concat (String sep EmptyString) (reverse rest); lst]
  | _ => [s]
  end.

Definition lower_ascii (c : ascii) : ascii :=
  let n := nat_of_ascii c in
  if ((65 <=? n) && (n <=? 90))%nat then ascii_of_nat (n + 32) else c.

(** [s.lower()] on ASCII text. *)
Fixpoint lower (s : string) : string :=
  match s with
  | EmptyString => EmptyString
  | String c s' => String (lower_ascii c) (lower s')
  end.

Definition hex_digit (c : ascii) : option Z :=
  let n := Z.of_nat (nat_of_ascii c) in
  if ((48 <=? n) && (n <=? 57))%Z then Some (n - 48)
  else if ((97 <=? n) && (n <=? 102))%Z then Some (n - 87)
  else if ((65 <=? n) && (n <=? 70))%Z then Some (n - 55)
  else None.

Fixpoint int16_digits (acc : Z) (s : string) : option Z :=
  match s with
  | EmptyString => Some acc
  | String c s' =>
      match hex_digit c with
      | Some d => int16_digits (16 * acc + d) s'
      | None => None
      end
  end.

(** [int(s, 16)] on what a colour picker can yield: a non-empty run of
    hexadecimal digits gives its value, anything else is [None] (Python
    raises ValueError).  Signs, blanks and underscores, which Python also
    reads, do not occur in a picker's value. *)
Definition int16 (s : string) : option Z :=
  match s with
  | EmptyString => None
  | _ => int16_digits 0 s
  end.

(** [s[i:i+2]] *)
Definition slice2 (i : nat) (s : string) : string := substring i 2 s.

End Str.

(** ** The world the script runs in *)

Import Pil.
Open Scope string_scope.
Open Scope Z_scope.

(** What an uploaded file carries: [uploaded_file.name] and
    [uploaded_file.getbuffer()]. *)
Record UploadedFile := mkUpload {
  name : string;
  buffer : list byte
}.

(** A file of the working directory: an upload as [f.write] left it, or an
    image as [Image.save] left it (PNG keeps every pixel). *)
Inductive FileContent :=
| FRaw (bytes : list byte)
| FPng (im : Image).

(** The exceptions the script can meet; none of them is caught in
    [src/app.py]. *)
Inductive Exn :=
| FileNotFoundError (path : string)
| UnidentifiedImageError
| ValueError (msg : string)
| SystemError (msg : string)
| RembgError.

(** What [st.image] is given. *)
Inductive Shown :=
| ShownUpload (file : UploadedFile)
| ShownImage (im : Image)
| ShownFile (path : string) (content : FileContent).

(** What the script does to the outside, in order: the Streamlit elements it
    emits, the log line, and each call of the segmentation model. *)
Inductive Event :=
| StTitle (text : string)
| StInfo (text : string)
| StError (text : string)
| StImage (what : Shown) (caption : string)
| StProgress (value : Z)
| StDownloadButton (label : string) (data : FileContent) (file_name mime : string)
| LoggingInfo (msg : string)
| RembgRemove (input : Image).

(** The working directory, the store behind [@st.cache_data] on
    [remove_background] (keyed by the call's arguments), and the events so
    far. *)
Record World := mkWorld {
  fs : gmap string FileContent;
  cache : gmap (string * string) string;
  trace : list Event
}.

Definition empty_world : World := mkWorld ∅ ∅ [].

Inductive Res (A : Type) :=
| Ok (a : A) (w : World)
| Raise (e : Exn) (w : World).
Arguments Ok {A} a w.
Arguments Raise {A} e w.

(** Script code: it reads and changes the world and returns, or raises. *)
Definition M (A : Type) : Type := World -> Res A.

#[global] Instance M_ret : MRet M := fun A a w => Ok a w.
#[global] Instance M_bind : MBind M := fun A B f m w =>
  match m w with
  | Ok a w' => f a w'
  | Raise e w' => Raise e w'
  end.

Definition raise {A} (e : Exn) : M A := fun w => Raise e w.

Definition log (e : Event) : M unit := fun w =>
  Ok tt (mkWorld (fs w) (cache w) (trace w ++ [e])%list).

(** [open(path, 'wb').write(...)] and [Image.save]. *)
Definition write_file (path : string) (c : FileContent) : M unit := fun w =>
  Ok tt (mkWorld (<[path := c]> (fs w)) (cache w) (trace w)).

(** [open(path, 'rb')] *)
Definition read_file (path : string) : M FileContent := fun w =>
  match fs w !! path with
  | Some c => Ok c w
  | None => Raise (FileNotFoundError path) w
  end.

(** The world after a run, and what it returned. *)
Definition world_of {A} (r : Res A) : World :=
  match r with Ok _ w => w | Raise _ w => w end.

Definition raised {A} (r : Res A) : option Exn :=
  match r with Ok _ _ => None | Raise e _ => Some e end.

(** ** The program *)

(** The values the widgets of one file's block return in a run: the two
    resize sliders, the rotation slider, the crop checkbox and its four
    sliders, the model selectbox, the colour picker and the button.  (What
    Streamlit makes of the widgets whose label does not name the file, when
    several files reach them in one run, is not modelled.) *)
Record Widgets := mkWidgets {
  resize_width : Z;
  resize_height : Z;
  rotation_angle : Z;
  crop : bool;
  crop_left : Z;
  crop_upper : Z;
  crop_right : Z;
  crop_lower : Z;
  model_choice : string;
  bg_color : string;
  button : bool
}.

Definition UPLOAD_FOLDER : string := "static/uploads".
Definition ALLOWED_EXTENSIONS : list string := ["png"; "jpg"; "jpeg"; "webp"].
Definition MAX_FILE_SIZE : Z := 10 * 1024 * 1024.

(** [os.path.join(a, b)] on POSIX, for a folder [a] without a trailing
    slash. *)
Definition os_path_join (a b : string) : string :=
  match b with
  | String "/"%char _ => b
  | _ => a +:+ "/" +:+ b
  end.

Definition allowed_file (filename : string) : bool :=
  Str.contains "." filename &&
  match Str.rsplit1 "." filename with
  | [_; ext] => bool_decide (Str.lower ext ∈ ALLOWED_EXTENSIONS)
  | _ => false
  end.

Definition check_file_size (file : UploadedFile) : M bool :=
  if MAX_FILE_SIZE <? Z.of_nat (length (buffer file)) then
    log (StError "File is too large. Please upload a smaller file.");;
    mret false
  else mret true.

(** [st.image(im, caption=...)] for a Pillow image: Streamlit encodes it
    at once. *)
Definition st_image_pil (im : Image) (caption : string) : M unit :=
  if no_pixels im then raise (SystemError "tile cannot extend outside image")
  else log (StImage (ShownImage im) caption).

(** The loop of [replace_background_color] over [datas]. *)
Definition replace_loop (datas : list Pixel) (color : Color) : list Pixel :=
  fold_left
    (fun (new_data : list Pixel) (item : Pixel) =>
       if alpha item =? 0 then (new_data ++ [(color, 255)])%list
       else (new_data ++ [item])%list)
    datas [].

(** What [replace_background_color] does to the opened image. *)
Definition replace_in_image (image : Image) (color : Color) : Image :=
  let image := convert_RGBA image in
  let datas := getdata image in
  let new_data := replace_loop datas color in
  putdata image new_data.

(** [tuple(int(bg_color[i:i+2], 16) for i in (1, 3, 5))] *)
Definition color_of_hex (bg_color : string) : option Color :=
  r ← Str.int16 (Str.slice2 1 bg_color);
  g ← Str.int16 (Str.slice2 3 bg_color);
  b ← Str.int16 (Str.slice2 5 bg_color);
  Some (r, g, b).

(** [filename.split('.')[0] + "_rembg.png"] *)
Definition rembg_img_name_of (filename : string) : string :=
  Str.first (Str.split "." filename) +:+ "_rembg.png".

Section App.

(** [werkzeug.utils.secure_filename] *)
Variable secure_filename : string -> string.
(** [Image.open] on bytes: [None] when Pillow cannot identify them. *)
Variable image_decode : list byte -> option Image.
(** [image.resize((w, h))] and [image.rotate(angle)] *)
Variable resize : Image -> Z * Z -> Image.
Variable rotate : Image -> Z -> Image.
(** [rembg.remove]: [None] when it raises. *)
Variable rembg_remove : Image -> option Image.

(** [Image.open(path)] followed by use of the pixels. *)
Definition image_open (path : string) : M Image :=
  c ← read_file path;
  match c with
  | FPng im => mret im
  | FRaw bytes =>
      match image_decode bytes with
      | Some im => mret im
      | None => raise UnidentifiedImageError
      end
  end.

(** [im.save(path)] *)
Definition image_save (im : Image) (path : string) : M unit :=
  if no_pixels im then raise (SystemError "tile cannot extend outside image")
  else write_file path (FPng im).

(** [remove(input)] *)
Definition call_remove (input : Image) : M Image :=
  log (RembgRemove input);;
  match rembg_remove input with
  | Some output => mret output
  | None => raise RembgError
  end.

(** The body of [remove_background]. *)
Definition remove_background_body (input_path output_path : string) : M string :=
  input ← image_open input_path;
  output ← call_remove input;
  image_save output output_path;;
  mret output_path.

(** [@st.cache_data]: a call whose arguments are in the store returns the
    stored value and does not run the body; otherwise the body runs and its
    value is stored (an exception stores nothing). *)
Definition remove_background (input_path output_path : string) : M string :=
  fun w =>
    match cache w !! (input_path, output_path) with
    | Some v => Ok v w
    | None =>
        match remove_background_body input_path output_path w with
        | Ok v w' =>
            Ok v (mkWorld (fs w') (<[(input_path, output_path) := v]> (cache w'))
                    (trace w'))
        | Raise e w' => Raise e w'
        end
    end.

Definition replace_background_color
    (input_path output_path : string) (color : Color) : M string :=
  image ← image_open input_path;
  let image := replace_in_image image color in
  image_save image output_path;;
  mret output_path.

(** [st.image(uploaded_file, ...)]: Streamlit opens the bytes with Pillow
    to find their format. *)
Definition st_image_upload (uploaded_file : UploadedFile) (caption : string) : M unit :=
  match image_decode (buffer uploaded_file) with
  | Some _ => log (StImage (ShownUpload uploaded_file) caption)
  | None => raise UnidentifiedImageError
  end.

(** [st.image(path, ...)]: Streamlit reads the file. *)
Definition st_image_path (path caption : string) : M unit :=
  c ← read_file path;
  log (StImage (ShownFile path c) caption).

(** The body of [if st.button(f"Remove Background for {filename}"):]. *)
Definition on_remove_clicked
    (uploaded_name filename : string) (image_resized : Image)
    (bg_color : string) : M unit :=
  log (StProgress 0);;
  let rembg_img_name := rembg_img_name_of filename in
  let rembg_img_path := os_path_join UPLOAD_FOLDER rembg_img_name in
  let temp_resized_path := os_path_join UPLOAD_FOLDER "temp_resized.png" in
  image_save image_resized temp_resized_path;;
  log (StProgress 50);;
  final_img_path ← remove_background temp_resized_path rembg_img_path;
  log (StProgress 100);;
  (if negb (String.eqb bg_color "#FFFFFF") then
     match color_of_hex bg_color with
     | Some color =>
         replace_background_color final_img_path rembg_img_path color;;
         st_image_path rembg_img_path
           ("Processed Image with Color: " +:+ filename)
     | None => raise (ValueError "invalid literal for int() with base 16")
     end
   else
     st_image_path rembg_img_path ("Processed Image: " +:+ filename));;
  data ← read_file rembg_img_path;
  log (StDownloadButton ("Download Processed Image " +:+ filename)
         data rembg_img_name "image/png");;
  log (LoggingInfo ("Image processed and downloaded: " +:+ uploaded_name)).

(** The crop block: the four sliders' values go to [crop] as they are. *)
Definition crop_step (image_resized : Image) (ui : Widgets) : M Image :=
  if crop ui then
    match Pil.crop image_resized
            (crop_left ui, crop_upper ui, crop_right ui, crop_lower ui) with
    | inr cropped =>
        st_image_pil cropped "Cropped Image";;
        mret cropped
    | inl RightLessThanLeft =>
        raise (ValueError "Coordinate 'right' is less than 'left'")
    | inl LowerLessThanUpper =>
        raise (ValueError "Coordinate 'lower' is less than 'upper'")
    end
  else mret image_resized.

(** One turn of [for uploaded_file in uploaded_files:]. *)
Definition process_file (uploaded_file : UploadedFile) (ui : Widgets) : M unit :=
  st_image_upload uploaded_file ("Original Image: " +:+ name uploaded_file);;
  ok ← check_file_size uploaded_file;
  if negb ok then mret tt (* continue *)
  else
    let filename := secure_filename (name uploaded_file) in
    let file_path := os_path_join UPLOAD_FOLDER filename in
    write_file file_path (FRaw (buffer uploaded_file));;
    image ← match image_decode (buffer uploaded_file) with
            | Some im => mret im
            | None => raise UnidentifiedImageError
            end;
    let image_resized := resize image (resize_width ui, resize_height ui) in
    st_image_pil image_resized ("Resized Image: " +:+ filename);;
    let image_resized := rotate image_resized (rotation_angle ui) in
    st_image_pil image_resized "Rotated Image";;
    image_resized ← crop_step image_resized ui;
    if button ui then
      on_remove_clicked (name uploaded_file) filename image_resized (bg_color ui)
    else mret tt.

Fixpoint for_uploaded_files (uploaded_files : list (UploadedFile * Widgets)) : M unit :=
  match uploaded_files with
  | [] => mret tt
  | (uploaded_file, ui) :: rest =>
      process_file uploaded_file ui;;
      for_uploaded_files rest
  end.

Definition main (uploaded_files : list (UploadedFile * Widgets)) : M unit :=
  log (StTitle "Background Remover with Streamlit");;
  match uploaded_files with
  | [] => log (StInfo "Please upload an image to get started.")
  | _ => for_uploaded_files uploaded_files
  end.

End App.


(** ** Notions the properties are stated with *)

(** What the compositor does to one pixel. *)
Definition replace_pixel (color : Color) (item : Pixel) : Pixel :=
  if alpha item =? 0 then (color, 255) else item.

(** The world with the file at [path] replaced by [c]. *)
Definition with_file (path : string) (c : FileContent) (w : World) : World :=
  mkWorld (<[path := c]> (fs w)) (cache w) (trace w).

(** The world with further events at the end of its trace. *)
Definition with_events (es : list Event) (w : World) : World :=
  mkWorld (fs w) (cache w) (trace w ++ es)%list.

(** The next run of the script: the working directory and the cache stay,
    the page starts empty. *)
Definition next_run (w : World) : World := mkWorld (fs w) (cache w) [].

(** The files a trace offers for download: name and content. *)
Definition downloads (t : list Event) : list (string * FileContent) :=
  omap (fun e => match e with
                 | StDownloadButton _ data file_name _ => Some (file_name, data)
                 | _ => None
                 end) t.

(** The images a trace handed to the segmentation model, call by call. *)
Definition remove_calls (t : list Event) : list Image :=
  omap (fun e => match e with
                 | RembgRemove input => Some input
                 | _ => None
                 end) t.

(** Each crop slider runs from 0 to the image's width (or height). *)
Definition crop_sliders_in_range (image_resized : Image) (ui : Widgets) : Prop :=
  0 <= crop_left ui <= width image_resized /\
  0 <= crop_right ui <= width image_resized /\
  0 <= crop_upper ui <= height image_resized /\
  0 <= crop_lower ui <= height image_resized.

(** A file name without its extension: what precedes the last dot. *)
Definition base_name (filename : string) : string :=
  Str.first (Str.rsplit1 "." filename).

(** What the pressed button delivers: the segmented image, or the
    segmented image on the picked colour. *)
Definition final_image (bg_color : string) (seg : Image) (color : Color) : Image :=
  if String.eqb bg_color "#FFFFFF" then seg else replace_in_image seg color.

Definition final_caption (bg_color filename : string) : string :=
  if String.eqb bg_color "#FFFFFF" then "Processed Image: " +:+ filename
  else "Processed Image with Color: " +:+ filename.

Definition temp_resized_path : string :=
  os_path_join UPLOAD_FOLDER "temp_resized.png".

Definition rembg_img_path_of (filename : string) : string :=
  os_path_join UPLOAD_FOLDER (rembg_img_name_of filename).

(** ** Relations between the world before and after a run *)

(** A relation between the world before and the world after that a piece
    of script keeps, whether it returns or raises. *)
Definition keeps (R : World -> World -> Prop) {A : Type} (m : M A) : Prop :=
  forall w, R w (world_of (m w)).

(** No file disappears, and only files at paths in [P] are written. *)
Definition files_within (P : string -> Prop) (w w' : World) : Prop :=
  (forall p, is_Some (fs w !! p) -> is_Some (fs w' !! p)) /\
  (forall p, ~ P p -> fs w' !! p = fs w !! p).

(** The above with the cache as it was. *)
Definition same_cache_within (P : string -> Prop) (w w' : World) : Prop :=
  cache w' = cache w /\ files_within P w w'.

(** The above with every cached result still in the cache. *)
Definition grows_within (P : string -> Prop) (w w' : World) : Prop :=
  cache w ⊆ cache w' /\ files_within P w w'.

(** Nothing is segmented, offered for download or cached. *)
Definition quiet (w w' : World) : Prop :=
  cache w' = cache w /\
  remove_calls (trace w') = remove_calls (trace w) /\
  downloads (trace w') = downloads (trace w).

(** A path directly inside the upload folder. *)
Definition in_upload_folder (p : string) : Prop :=
  exists n, Str.contains "/" n = false /\ p = UPLOAD_FOLDER +:+ "/" +:+ n.

(** The paths one file's turn writes to. *)
Definition paths_of (secure_filename : string -> string) (file : UploadedFile)
    : list string :=
  [os_path_join UPLOAD_FOLDER (secure_filename (name file));
   temp_resized_path;
   rembg_img_path_of (secure_filename (name file))].

(** ** Notions of the design and of the page *)



(** What a trace offers for download: file name and MIME type. *)
Definition delivered (t : list Event) : list (string * string) :=
  omap (fun e => match e with
                 | StDownloadButton _ _ file_name mime => Some (file_name, mime)
                 | _ => None
                 end) t.

(** A piece of script that offers nothing for download. *)
Definition silent (w w' : World) : Prop :=
  delivered (trace w') = delivered (trace w).

(** A piece of script that offers [entry] when it returns and nothing when
    it raises. *)
Definition offers (entry : list (string * string)) {A : Type} (m : M A) : Prop :=
  forall w,
    match m w with
    | Ok _ w' => delivered (trace w') = (delivered (trace w) ++ entry)%list
    | Raise _ w' => delivered (trace w') = delivered (trace w)
    end.

(** Whether the size check lets a file through. *)
Definition fits (file : UploadedFile) : bool :=
  bool_decide (Z.of_nat (length (buffer file)) <= MAX_FILE_SIZE).

(** ** Concrete data *)

Module Sample.

(** A 2 by 2 image: an opaque pixel, a partially transparent one, and two
    fully transparent ones. *)
Definition picture : Image :=
  mkImage RGBA 2 2 [((9, 9, 9), 255); ((4, 5, 6), 7); ((1, 2, 3), 0); ((0, 0, 0), 0)].

Definition green : Color := (0, 255, 0).

(** A decoder that knows one upload: any non-empty buffer is [picture]. *)
Definition decode (bytes : list byte) : option Image :=
  match bytes with
  | [] => None
  | _ => Some picture
  end.

(** A working directory holding [picture] under "static/uploads/in.png". *)
Definition world : World :=
  with_file "static/uploads/in.png" (FPng picture) empty_world.

(** A resize by nearest neighbour. *)
Definition resize (im : Image) (size : Z * Z) : Image :=
  mkImage (mode im) size.1 size.2
    (y ← seqZ 0 size.2;
     x ← seqZ 0 size.1;
     [getpixel im (x * width im / size.1) (y * height im / size.2)]).

(** A rotation that knows the angle 0 only. *)
Definition rotate (im : Image) (angle : Z) : Image := im.

(** A segmentation model: dark pixels are background.  It fails on an image
    of a single column. *)
Definition segment (im : Image) : option Image :=
  if width im <? 2 then None
  else
    Some (mkImage RGBA (width im) (height im)
            (map (fun p : Pixel => if p.1.1.1 <? 8 then (p.1, 0) else (p.1, 255))
               (data im))).

(** [werkzeug.utils.secure_filename] on ASCII names under POSIX: a slash
    counts as a blank, each run of blanks between words becomes one "_",
    characters other than letters, digits, "_", "." and "-" are dropped, and
    dots and underscores are stripped from both ends. *)
Definition is_blank (c : ascii) : bool :=
  let n := nat_of_ascii c in
  ((n =? 32) || ((9 <=? n) && (n <=? 13)) || ((28 <=? n) && (n <=? 31))
   || (n =? 47))%nat.

Fixpoint join_words (pending started : bool) (s : string) : string :=
  match s with
  | EmptyString => EmptyString
  | String c s' =>
      if is_blank c then join_words started started s'
      else if pending then String "_" (String c (join_words false true s'))
      else String c (join_words false true s')
  end.

Definition is_safe (c : ascii) : bool :=
  let n := nat_of_ascii c in
  (((48 <=? n) && (n <=? 57)) || ((65 <=? n) && (n <=? 90))
   || ((97 <=? n) && (n <=? 122)) || (n =? 95) || (n =? 46) || (n =? 45))%nat.

Fixpoint keep_safe (s : string) : string :=
  match s with
  | EmptyString => EmptyString
  | String c s' => if is_safe c then String c (keep_safe s') else keep_safe s'
  end.

Definition is_dot_or_underscore (c : ascii) : bool :=
  let n := nat_of_ascii c in ((n =? 46) || (n =? 95))%nat.

Fixpoint lstrip (cs : list ascii) : list ascii :=
  match cs with
  | c :: cs' => if is_dot_or_underscore c then lstrip cs' else cs
  | [] => []
  end.

Definition secure_filename (filename : string) : string :=
  let kept := list_ascii_of_string (keep_safe (join_words false false filename)) in
  string_of_list_ascii (reverse (lstrip (reverse (lstrip kept)))).

Definition photo : UploadedFile := mkUpload "photo.jpg" [x01; x02; x03].
(** An empty file with an allowed extension. *)
Definition broken : UploadedFile := mkUpload "broken.png" [].

(** Widget values: 100 by 100, no turn, crop to the 2 by 2 pixels around
    the centre, the button pressed or not.  Under [resize] and [rotate] the
    cropped image of [photo] is [picture] again. *)
Definition widgets (bg_color : string) (button : bool) : Widgets :=
  mkWidgets 100 100 0 true 49 49 51 51 "Default Model" bg_color button.

(** [picture] as [segment] returns it. *)
Definition segmented : Image :=
  mkImage RGBA 2 2 [((9, 9, 9), 255); ((4, 5, 6), 0); ((1, 2, 3), 0); ((0, 0, 0), 0)].

(** [segmented] on green. *)
Definition on_green : Image :=
  mkImage RGBA 2 2
    [((9, 9, 9), 255); ((0, 255, 0), 255); ((0, 255, 0), 255); ((0, 255, 0), 255)].

Definition run (files : list (UploadedFile * Widgets)) (w : World) : Res unit :=
  main secure_filename decode resize rotate segment files w.

(** [segmented] on white. *)
Definition on_white : Image :=
  mkImage RGBA 2 2
    [((9, 9, 9), 255); ((255, 255, 255), 255); ((255, 255, 255), 255);
     ((255, 255, 255), 255)].

(** A file of one byte more than 10 MiB. *)
Definition oversized : UploadedFile :=
  mkUpload "huge.png" (replicate (Z.to_nat (10 * 1024 * 1024 + 1)) x00).

(** An image without an alpha channel. *)
Definition opaque : Image :=
  mkImage RGB 2 1 [((200, 10, 10), 255); ((10, 200, 10), 255)].

(** A single column, on which [segment] fails. *)
Definition column : Image := mkImage RGBA 1 2 [((9, 9, 9), 255); ((1, 2, 3), 0)].

(** [picture] resized to 100 by 100, and what [segment] makes of that. *)
Definition resized : Image := resize picture (100, 100).

Definition segmented_resized : Image :=
  mkImage RGBA 100 100
    (map (fun p : Pixel => if p.1.1.1 <? 8 then (p.1, 0) else (p.1, 255))
       (data resized)).

(** Widget values without cropping: 100 by 100, no turn. *)
Definition uncropped (bg_color : string) (button : bool) : Widgets :=
  mkWidgets 100 100 0 false 0 0 100 100 "Default Model" bg_color button.

(** The world a run with green and the button pressed leaves to the next
    run. *)
Definition after_green : World :=
  next_run (world_of (run [(photo, widgets "#00FF00" true)] empty_world)).

Lemma picture_valid : valid_image picture.
Proof.
  unfold valid_image, picture; simpl. repeat split; try lia.
  repeat constructor; simpl; lia.
Defined.

Lemma green_valid : valid_color green.
Proof. unfold valid_color, channel_ok, green; simpl. lia. Defined.

End Sample.

(** ** Pixels *)

Section Pixels.

Implicit Types (im : Image) (color : Color) (p item : Pixel).

Lemma replace_loop_acc datas color (acc : list Pixel) :
  fold_left
    (fun (new_data : list Pixel) (item : Pixel) =>
       if alpha item =? 0 then (new_data ++ [(color, 255)])%list
       else (new_data ++ [item])%list)
    datas acc
  = (acc ++ map (replace_pixel color) datas)%list.
Proof.
  revert acc. induction datas as [|item datas IH]; intros acc; simpl.
  - by rewrite app_nil_r.
  - rewrite IH. unfold replace_pixel at 2.
    destruct (alpha item =? 0); by rewrite <- app_assoc.
Qed.

Lemma replace_loop_map datas color :
  replace_loop datas color = map (replace_pixel color) datas.
Proof. unfold replace_loop. by rewrite replace_loop_acc. Qed.

Lemma putdata_full im (seq : list Pixel) :
  length seq = length (data im) ->
  data (putdata im seq) = map clip_pixel seq.
Proof.
  intros Hlen. unfold putdata; simpl.
  rewrite take_ge, drop_ge by lia. by rewrite app_nil_r.
Qed.

Lemma replace_in_image_data im color :
  data (replace_in_image im color)
  = map (fun p => clip_pixel (replace_pixel color p)) (data (convert_RGBA im)).
Proof.
  unfold replace_in_image, getdata.
  rewrite putdata_full by (by rewrite replace_loop_map, length_map).
  by rewrite replace_loop_map, map_map.
Qed.

Lemma replace_in_image_size im color :
  width (replace_in_image im color) = width im /\
  height (replace_in_image im color) = height im /\
  length (data (replace_in_image im color)) = length (data im).
Proof.
  rewrite replace_in_image_data, length_map.
  unfold replace_in_image, putdata, convert_RGBA; simpl.
  destruct (mode im); simpl; by rewrite ?length_map.
Qed.

Lemma replace_in_image_no_pixels im color :
  no_pixels (replace_in_image im color) = no_pixels im.
Proof.
  destruct (replace_in_image_size im color) as (Hw & Hh & _).
  unfold no_pixels. by rewrite Hw, Hh.
Qed.

Lemma valid_image_has_pixels im : valid_image im -> no_pixels im = false.
Proof.
  intros (Hw & Hh & _). unfold no_pixels.
  destruct (Z.leb_spec (width im) 0); [lia|].
  destruct (Z.leb_spec (height im) 0); [lia|done].
Qed.

Lemma clip8_id v : channel_ok v -> clip8 v = v.
Proof.
  unfold channel_ok, clip8. intros [H0 H255].
  destruct (Z.ltb_spec v 0); [lia|].
  destruct (Z.ltb_spec 255 v); [lia|done].
Qed.

Lemma clip8_ok v : channel_ok (clip8 v).
Proof.
  unfold channel_ok, clip8.
  destruct (Z.ltb_spec v 0); [lia|].
  destruct (Z.ltb_spec 255 v); lia.
Qed.

Lemma clip_pixel_id p : valid_pixel p -> clip_pixel p = p.
Proof.
  destruct p as [[[r g] b] a]. unfold valid_pixel, valid_color, clip_pixel; simpl.
  intros [(Hr & Hg & Hb) Ha]. by rewrite !clip8_id.
Qed.

Lemma replace_pixel_valid color p :
  valid_color color -> valid_pixel p -> valid_pixel (replace_pixel color p).
Proof.
  intros Hc Hp. unfold replace_pixel. destruct (alpha p =? 0); [|done].
  split; [done|]. unfold channel_ok; simpl. lia.
Qed.

Lemma convert_RGBA_of_RGBA im : mode im = RGBA -> convert_RGBA im = im.
Proof. unfold convert_RGBA. by intros ->. Qed.

End Pixels.

(** ** The compositor: [replace_background_color] *)

Section Compositor.

Variable image_decode : list byte -> option Image.

Implicit Types (w : World) (im : Image) (color : Color).

Lemma replace_background_color_run w input_path output_path color im :
  image_open image_decode input_path w = Ok im w ->
  no_pixels im = false ->
  replace_background_color image_decode input_path output_path color w
  = Ok output_path (with_file output_path (FPng (replace_in_image im color)) w).
Proof.
  intros Hopen Hpixels. unfold replace_background_color, image_save, mbind, M_bind.
  by rewrite Hopen, replace_in_image_no_pixels, Hpixels.
Qed.

Lemma image_open_png w path im :
  fs w !! path = Some (FPng im) -> image_open image_decode path w = Ok im w.
Proof.
  intros Hfile. unfold image_open, read_file, mbind, M_bind. by rewrite Hfile.
Qed.

Lemma converted_alpha_ok im :
  valid_image im ->
  Forall (fun p => channel_ok (alpha p)) (data (convert_RGBA im)).
Proof.
  intros (_ & _ & _ & Hpx). unfold convert_RGBA.
  destruct (mode im); simpl.
  - apply Forall_map, Forall_true. intros p. unfold channel_ok, alpha; simpl. lia.
  - eapply Forall_impl; [exact Hpx|]. by intros p [_ Ha].
Qed.

Lemma replace_in_image_opaque im color :
  valid_image im ->
  Forall (fun p => alpha p <> 0) (data (replace_in_image im color)).
Proof.
  intros Hvalid. rewrite replace_in_image_data. apply Forall_map.
  eapply Forall_impl; [exact (converted_alpha_ok im Hvalid)|].
  intros [rgb a] Ha. unfold replace_pixel, alpha in *; simpl in *.
  destruct (Z.eqb_spec a 0) as [->|Hne]; simpl.
  - discriminate.
  - rewrite clip8_id by done. done.
Qed.

Lemma replace_in_image_mode im color : mode (replace_in_image im color) = RGBA.
Proof.
  unfold replace_in_image, putdata, convert_RGBA; simpl.
  by destruct (mode im) eqn:Hmode.
Qed.

Lemma clip8_clip8 v : clip8 (clip8 v) = clip8 v.
Proof. apply clip8_id, clip8_ok. Qed.

Lemma clip_pixel_clip_pixel (p : Pixel) : clip_pixel (clip_pixel p) = clip_pixel p.
Proof.
  destruct p as [[[r g] b] a]. unfold clip_pixel; simpl. by rewrite !clip8_clip8.
Qed.

Lemma replace_in_image_clipped im color :
  Forall (fun p => clip_pixel p = p) (data (replace_in_image im color)).
Proof.
  rewrite replace_in_image_data. apply Forall_map, Forall_true.
  intros p. apply clip_pixel_clip_pixel.
Qed.

(** A second pass over a composited image finds nothing to replace. *)
Lemma replace_in_image_twice im color :
  valid_image im ->
  replace_in_image (replace_in_image im color) color = replace_in_image im color.
Proof.
  intros Hvalid.
  pose proof (replace_in_image_opaque im color Hvalid) as Hopaque.
  pose proof (replace_in_image_clipped im color) as Hclipped.
  pose proof (replace_in_image_mode im color) as Hmode.
  pose proof (replace_in_image_data (replace_in_image im color) color) as Hdata.
  rewrite (convert_RGBA_of_RGBA _ Hmode) in Hdata.
  assert (data (replace_in_image (replace_in_image im color) color)
          = data (replace_in_image im color)) as Hsame.
  { rewrite Hdata. rewrite <- (map_id (data (replace_in_image im color))) at 2.
    apply map_ext_Forall.
    eapply Forall_impl; [apply Forall_and; split; [exact Hopaque|exact Hclipped]|].
    simpl. intros p [Hp Hclip]. unfold replace_pixel.
    destruct (Z.eqb_spec (alpha p) 0); done. }
  destruct (replace_in_image (replace_in_image im color) color) as [m2 w2 h2 d2] eqn:E2.
  destruct (replace_in_image im color) as [m1 w1 h1 d1] eqn:E1.
  simpl in Hsame, Hmode. subst.
  assert (m2 = RGBA) as ->.
  { change m2 with (mode (mkImage m2 w2 h2 d1)). rewrite <- E2.
    apply replace_in_image_mode. }
  assert (w2 = w1 /\ h2 = h1) as [-> ->]; [|done].
  pose proof (replace_in_image_size (mkImage RGBA w1 h1 d1) color) as (Hw & Hh & _).
  rewrite E2 in Hw, Hh. simpl in Hw, Hh. done.
Qed.

End Compositor.

Section CompositorProperties.

Variable image_decode : list byte -> option Image.

Implicit Types (w : World) (im : Image) (color : Color).

(** C1. For an RGBA image stored at [input_path] and an RGB colour,
    [replace_background_color] returns normally, stores at [output_path] an
    image of the same number of pixels, and pixel by pixel: a pixel whose
    alpha is 0 becomes the colour with alpha 255, and every other pixel,
    the partially transparent ones included, is the input's pixel, unchanged.
    Nothing else in the world changes. *)
Theorem replace_background_color_pixels w input_path output_path color im :
  image_open image_decode input_path w = Ok im w ->
  mode im = RGBA -> valid_image im -> valid_color color ->
  exists im',
    replace_background_color image_decode input_path output_path color w
    = Ok output_path (with_file output_path (FPng im') w) /\
    length (data im') = length (data im) /\
    forall (i : nat) (item : Pixel),
      data im !! i = Some item ->
      data im' !! i = Some (if alpha item =? 0 then (color, 255) else item).
Proof.
  intros Hopen Hmode Hvalid Hcolor.
  exists (replace_in_image im color).
  split; [by apply replace_background_color_run, valid_image_has_pixels|].
  split; [apply replace_in_image_size|].
  intros i item Hi.
  rewrite replace_in_image_data, (convert_RGBA_of_RGBA _ Hmode).
  rewrite list_lookup_fmap, Hi; simpl. f_equal.
  destruct Hvalid as (_ & _ & _ & Hpx).
  apply clip_pixel_id, replace_pixel_valid; [done|].
  by eapply Forall_lookup_1 in Hpx.
Qed.

(** C2. Applying [replace_background_color] to its own output with the
    same colour stores the same image again: the first output has no pixel
    of alpha 0, and the second run leaves the world as the first run left
    it. *)
Theorem replace_background_color_idempotent w input_path output_path color im :
  image_open image_decode input_path w = Ok im w ->
  valid_image im ->
  exists im' w1,
    replace_background_color image_decode input_path output_path color w
    = Ok output_path w1 /\
    fs w1 !! output_path = Some (FPng im') /\
    Forall (fun p => alpha p <> 0) (data im') /\
    replace_in_image im' color = im' /\
    replace_background_color image_decode output_path output_path color w1
    = Ok output_path w1.
Proof.
  intros Hopen Hvalid.
  exists (replace_in_image im color),
    (with_file output_path (FPng (replace_in_image im color)) w).
  split; [by apply replace_background_color_run, valid_image_has_pixels|].
  split; [apply lookup_insert_eq|].
  split; [by apply replace_in_image_opaque|].
  split; [by apply replace_in_image_twice|].
  erewrite replace_background_color_run;
    [|apply image_open_png, lookup_insert_eq
     |by rewrite replace_in_image_no_pixels; apply valid_image_has_pixels].
  rewrite replace_in_image_twice by done.
  unfold with_file; simpl. by rewrite insert_insert_eq.
Qed.

(** C9. The image [replace_background_color] stores has no pixel whose
    alpha is 0. *)
Theorem replace_background_color_no_alpha_zero w input_path output_path color im :
  image_open image_decode input_path w = Ok im w ->
  valid_image im ->
  exists im',
    replace_background_color image_decode input_path output_path color w
    = Ok output_path (with_file output_path (FPng im') w) /\
    Forall (fun p => alpha p <> 0) (data im').
Proof.
  intros Hopen Hvalid. exists (replace_in_image im color).
  split; [by apply replace_background_color_run, valid_image_has_pixels|].
  by apply replace_in_image_opaque.
Qed.

(** C10. The image [replace_background_color] stores has the width, the
    height and the number of pixels of the image it opened. *)
Theorem replace_background_color_dimensions w input_path output_path color im :
  image_open image_decode input_path w = Ok im w ->
  no_pixels im = false ->
  exists im',
    replace_background_color image_decode input_path output_path color w
    = Ok output_path (with_file output_path (FPng im') w) /\
    width im' = width im /\
    height im' = height im /\
    length (data im') = length (data im).
Proof.
  intros Hopen Hpixels. exists (replace_in_image im color).
  split; [by apply replace_background_color_run|].
  apply replace_in_image_size.
Qed.

End CompositorProperties.

Lemma replace_background_color_pixels_witness :
  exists im',
    replace_background_color Sample.decode
      "static/uploads/in.png" "static/uploads/out.png" Sample.green Sample.world
    = Ok "static/uploads/out.png"
        (with_file "static/uploads/out.png" (FPng im') Sample.world) /\
    length (data im') = length (data Sample.picture) /\
    forall (i : nat) (item : Pixel),
      data Sample.picture !! i = Some item ->
      data im' !! i = Some (if alpha item =? 0 then (Sample.green, 255) else item).
Proof.
  apply (replace_background_color_pixels Sample.decode Sample.world
           "static/uploads/in.png" "static/uploads/out.png"
           Sample.green Sample.picture).
  - reflexivity.
  - reflexivity.
  - exact Sample.picture_valid.
  - exact Sample.green_valid.
Defined.

Lemma replace_background_color_idempotent_witness :
  exists im' w1,
    replace_background_color Sample.decode
      "static/uploads/in.png" "static/uploads/out.png" Sample.green Sample.world
    = Ok "static/uploads/out.png" w1 /\
    fs w1 !! "static/uploads/out.png" = Some (FPng im') /\
    Forall (fun p => alpha p <> 0) (data im') /\
    replace_in_image im' Sample.green = im' /\
    replace_background_color Sample.decode
      "static/uploads/out.png" "static/uploads/out.png" Sample.green w1
    = Ok "static/uploads/out.png" w1.
Proof.
  apply (replace_background_color_idempotent Sample.decode Sample.world
           "static/uploads/in.png" "static/uploads/out.png"
           Sample.green Sample.picture).
  - reflexivity.
  - exact Sample.picture_valid.
Defined.

Lemma replace_background_color_no_alpha_zero_witness :
  exists im',
    replace_background_color Sample.decode
      "static/uploads/in.png" "static/uploads/out.png" Sample.green Sample.world
    = Ok "static/uploads/out.png"
        (with_file "static/uploads/out.png" (FPng im') Sample.world) /\
    Forall (fun p => alpha p <> 0) (data im').
Proof.
  apply (replace_background_color_no_alpha_zero Sample.decode Sample.world
           "static/uploads/in.png" "static/uploads/out.png"
           Sample.green Sample.picture).
  - reflexivity.
  - exact Sample.picture_valid.
Defined.

Lemma replace_background_color_dimensions_witness :
  exists im',
    replace_background_color Sample.decode
      "static/uploads/in.png" "static/uploads/out.png" Sample.green Sample.world
    = Ok "static/uploads/out.png"
        (with_file "static/uploads/out.png" (FPng im') Sample.world) /\
    width im' = width Sample.picture /\
    height im' = height Sample.picture /\
    length (data im') = length (data Sample.picture).
Proof.
  apply (replace_background_color_dimensions Sample.decode Sample.world
           "static/uploads/in.png" "static/uploads/out.png"
           Sample.green Sample.picture).
  - reflexivity.
  - reflexivity.
Defined.

(** The composited sample, pixel by pixel. *)
Example replace_in_image_sample :
  data (replace_in_image Sample.picture Sample.green)
  = [((9, 9, 9), 255); ((4, 5, 6), 7); ((0, 255, 0), 255); ((0, 255, 0), 255)].
Proof. reflexivity. Qed.

(** ** Running a piece of script *)

Lemma bind_run {A B} (m : M A) (f : A -> M B) (w : World) :
  (m ≫= f) w
  = match m w with
    | Ok a w' => f a w'
    | Raise e w' => Raise e w'
    end.
Proof. reflexivity. Qed.

Lemma keeps_ret (R : World -> World -> Prop) {A} (a : A) :
  (forall w, R w w) -> keeps R (mret a : M A).
Proof. intros Hrefl w. apply Hrefl. Qed.

Lemma keeps_raise (R : World -> World -> Prop) {A} (e : Exn) :
  (forall w, R w w) -> keeps R (raise e : M A).
Proof. intros Hrefl w. apply Hrefl. Qed.

Lemma keeps_bind (R : World -> World -> Prop) {A B} (m : M A) (f : A -> M B) :
  (forall w1 w2 w3, R w1 w2 -> R w2 w3 -> R w1 w3) ->
  keeps R m -> (forall a, keeps R (f a)) -> keeps R (m ≫= f).
Proof.
  intros Htrans Hm Hf w. rewrite bind_run.
  specialize (Hm w). destruct (m w) as [a w1|e w1]; simpl in *; [|done].
  eapply Htrans; [exact Hm|apply Hf].
Qed.

(** ** The size check *)

(** C4. [check_file_size] returns true exactly when the buffer holds at
    most 10*1024*1024 bytes; it emits the "too large" error exactly when it
    returns false, and changes nothing else. *)
Theorem check_file_size_limit (file : UploadedFile) (w : World) :
  check_file_size file w
  = if Z.of_nat (length (buffer file)) <=? 10 * 1024 * 1024
    then Ok true w
    else Ok false
           (mkWorld (fs w) (cache w)
              (trace w ++ [StError "File is too large. Please upload a smaller file."])).
Proof.
  unfold check_file_size, MAX_FILE_SIZE.
  destruct (Z.ltb_spec (10 * 1024 * 1024) (Z.of_nat (length (buffer file))));
    destruct (Z.leb_spec (Z.of_nat (length (buffer file))) (10 * 1024 * 1024));
    try lia; reflexivity.
Qed.

(** A buffer of [n] zero bytes. *)
Lemma zero_buffer_length (n : Z) :
  0 <= n -> Z.of_nat (length (replicate (Z.to_nat n) x00)) = n.
Proof. intros Hn. rewrite length_replicate. lia. Qed.

(** Exactly 10 MiB passes, one byte more does not. *)
Example check_file_size_10MiB (w : World) :
  check_file_size (mkUpload "a.png" (replicate (Z.to_nat (10 * 1024 * 1024)) x00)) w
  = Ok true w.
Proof.
  unfold check_file_size. cbn [buffer].
  rewrite (zero_buffer_length (10 * 1024 * 1024)) by lia. reflexivity.
Qed.

Example check_file_size_10MiB_plus_1 (w : World) :
  raised (check_file_size
            (mkUpload "a.png" (replicate (Z.to_nat (10 * 1024 * 1024 + 1)) x00)) w) = None /\
  exists w', check_file_size
            (mkUpload "a.png" (replicate (Z.to_nat (10 * 1024 * 1024 + 1)) x00)) w
          = Ok false w'.
Proof.
  unfold check_file_size. cbn [buffer].
  rewrite (zero_buffer_length (10 * 1024 * 1024 + 1)) by lia.
  split; [reflexivity|]. eexists. reflexivity.
Qed.

(** ** The crop block *)





(** The right column of the sample, as cropped. *)
Example crop_right_column :
  Pil.crop Sample.picture (1, 0, 2, 2)
  = inr (mkImage RGBA 1 2 [((4, 5, 6), 7); ((0, 0, 0), 0)]).
Proof. reflexivity. Qed.

(** With the "Right" slider at 0 the box lies within the image's bounds and
    has width 0: [crop] returns an image of no pixels, and the block ends
    when Streamlit tries to encode that image, with Pillow's encoder
    error. *)
Example crop_step_zero_width_box :
  let ui := mkWidgets 100 100 0 true 0 0 0 2 "Default Model" "#FFFFFF" false in
  crop_sliders_in_range Sample.picture ui /\
  crop_right ui - crop_left ui <= 0 /\
  Pil.crop Sample.picture (crop_left ui, crop_upper ui, crop_right ui, crop_lower ui)
  = inr (mkImage RGBA 0 2 []) /\
  crop_step Sample.picture ui empty_world
  = Raise (SystemError "tile cannot extend outside image") empty_world.
Proof.
  split; [unfold crop_sliders_in_range; simpl; lia|].
  split; [simpl; lia|]. split; reflexivity.
Qed.

(** A zero-width box ends the whole run: nothing is saved for the model,
    segmented or offered. *)
Example zero_width_box_ends_the_run :
  let ui := mkWidgets 100 100 0 true 0 0 0 100 "Default Model" "#FFFFFF" true in
  let r := Sample.run [(Sample.photo, ui)] empty_world in
  raised r = Some (SystemError "tile cannot extend outside image") /\
  remove_calls (trace (world_of r)) = [] /\
  downloads (trace (world_of r)) = [] /\
  fs (world_of r) !! temp_resized_path = None.
Proof. repeat split; reflexivity. Qed.

(** ** The output file name *)

Lemma split_without_sep (sep : ascii) (s : string) :
  Str.contains sep s = false -> Str.split sep s = [s].
Proof.
  induction s as [|c s IH]; simpl; [done|].
  destruct (Ascii.eqb c sep); simpl; [done|].
  intros Hs. by rewrite (IH Hs).
Qed.

Lemma split_first_cut (sep : ascii) (stem rest : string) :
  Str.contains sep stem = false ->
  Str.first (Str.split sep (stem +:+ String sep rest)) = stem.
Proof.
  induction stem as [|c stem IH]; simpl.
  - by rewrite Ascii.eqb_refl.
  - destruct (Ascii.eqb c sep); simpl; [done|]. intros Hs.
    specialize (IH Hs).
    destruct (Str.split sep (stem +:+ String sep rest)) as [|h t]; simpl in *.
    + by subst.
    + by subst.
Qed.

(** The output name is the part of the file name before its FIRST dot,
    followed by "_rembg.png". *)
Lemma rembg_img_name_of_cut (stem rest : string) :
  Str.contains "." stem = false ->
  rembg_img_name_of (stem +:+ "." +:+ rest) = stem +:+ "_rembg.png".
Proof.
  intros Hstem. unfold rembg_img_name_of.
  change (stem +:+ "." +:+ rest) with (stem +:+ String "."%char rest).
  by rewrite split_first_cut.
Qed.

Lemma split_cut (sep : ascii) (stem rest : string) :
  Str.contains sep stem = false ->
  Str.split sep (stem +:+ String sep rest) = stem :: Str.split sep rest.
Proof.
  induction stem as [|c stem IH]; simpl.
  - by rewrite Ascii.eqb_refl.
  - destruct (Ascii.eqb c sep); simpl; [done|]. intros Hs.
    by rewrite (IH Hs).
Qed.

Lemma base_name_single_dot (stem ext : string) :
  Str.contains "." stem = false ->
  Str.contains "." ext = false ->
  base_name (stem +:+ "." +:+ ext) = stem.
Proof.
  intros Hstem Hext. unfold base_name, Str.rsplit1.
  change (stem +:+ "." +:+ ext) with (stem +:+ String "."%char ext).
  by rewrite split_cut, (split_without_sep _ ext) by done.
Qed.

(** C6 on a name with two dots: the code cuts "my.photo.jpg" down to "my",
    while the name without its extension is "my.photo". *)
Theorem rembg_img_name_of_two_dots :
  rembg_img_name_of "my.photo.jpg" = "my_rembg.png" /\
  base_name "my.photo.jpg" +:+ "_rembg.png" = "my.photo_rembg.png" /\
  allowed_file "my.photo.jpg" = true.
Proof. repeat split. Qed.

(** With a single dot the two agree. *)
Example rembg_img_name_of_one_dot :
  rembg_img_name_of "photo.jpg" = "photo_rembg.png" /\
  base_name "photo.jpg" +:+ "_rembg.png" = "photo_rembg.png".
Proof. split; reflexivity. Qed.

(** ** The cache of [remove_background] *)

Section Cache.

Variable image_decode : list byte -> option Image.
Variable rembg_remove : Image -> option Image.

Lemma remove_background_hit (w : World) (input_path output_path v : string) :
  cache w !! (input_path, output_path) = Some v ->
  remove_background image_decode rembg_remove input_path output_path w = Ok v w.
Proof. intros Hhit. unfold remove_background. by rewrite Hhit. Qed.

Lemma remove_background_miss (w : World) (input_path output_path : string)
    (im seg : Image) :
  cache w !! (input_path, output_path) = None ->
  image_open image_decode input_path w = Ok im w ->
  rembg_remove im = Some seg ->
  no_pixels seg = false ->
  remove_background image_decode rembg_remove input_path output_path w
  = Ok output_path
      (mkWorld (<[output_path := FPng seg]> (fs w))
         (<[(input_path, output_path) := output_path]> (cache w))
         (trace w ++ [RembgRemove im])).
Proof.
  intros Hmiss Hopen Hseg Hpixels.
  unfold remove_background, remove_background_body, call_remove, image_save,
    mbind, M_bind.
  rewrite Hmiss, Hopen. simpl. rewrite Hseg. simpl. by rewrite Hpixels.
Qed.

Lemma remove_background_failure (w : World) (input_path output_path : string)
    (im : Image) :
  cache w !! (input_path, output_path) = None ->
  image_open image_decode input_path w = Ok im w ->
  rembg_remove im = None ->
  remove_background image_decode rembg_remove input_path output_path w
  = Raise RembgError (with_events [RembgRemove im] w).
Proof.
  intros Hmiss Hopen Hseg.
  unfold remove_background, remove_background_body, call_remove, mbind, M_bind.
  rewrite Hmiss, Hopen. simpl. by rewrite Hseg.
Qed.

(** C8, as the code has it.  [remove_background] is memoised on its two
    path arguments.  A call whose pair is not in the store opens the input,
    calls the model once, writes the output and stores the pair; from then
    on a call with the same pair returns the output path and touches neither
    the files nor the model, whatever the directory holds by then. *)
Theorem remove_background_is_keyed_by_paths (w : World)
    (input_path output_path : string) (im seg : Image) :
  cache w !! (input_path, output_path) = None ->
  image_open image_decode input_path w = Ok im w ->
  rembg_remove im = Some seg ->
  no_pixels seg = false ->
  exists w1,
    remove_background image_decode rembg_remove input_path output_path w
    = Ok output_path w1 /\
    fs w1 = <[output_path := FPng seg]> (fs w) /\
    trace w1 = (trace w ++ [RembgRemove im])%list /\
    forall w2, cache w2 = cache w1 ->
      remove_background image_decode rembg_remove input_path output_path w2
      = Ok output_path w2.
Proof.
  intros Hmiss Hopen Hseg Hpixels. eexists.
  split; [by apply remove_background_miss|].
  split; [done|]. split; [done|].
  intros w2 Hcache. apply remove_background_hit.
  rewrite Hcache. simpl. apply lookup_insert_eq.
Qed.

End Cache.

Lemma remove_background_is_keyed_by_paths_witness :
  exists w1,
    remove_background Sample.decode Sample.segment
      "static/uploads/in.png" "static/uploads/out.png" Sample.world
    = Ok "static/uploads/out.png" w1 /\
    fs w1 = <[ "static/uploads/out.png" := FPng Sample.segmented ]> (fs Sample.world) /\
    trace w1 = (trace Sample.world ++ [RembgRemove Sample.picture])%list /\
    forall w2, cache w2 = cache w1 ->
      remove_background Sample.decode Sample.segment
        "static/uploads/in.png" "static/uploads/out.png" w2
      = Ok "static/uploads/out.png" w2.
Proof.
  apply (remove_background_is_keyed_by_paths Sample.decode Sample.segment
           Sample.world "static/uploads/in.png" "static/uploads/out.png"
           Sample.picture Sample.segmented).
  - reflexivity.
  - reflexivity.
  - reflexivity.
  - reflexivity.
Defined.

(** C8 as claimed fails: after one call, the input file is replaced by a
    different image; the call with the same two paths returns at once, the
    model is not called, and the output file still holds the segmentation of
    the old content. *)
Lemma remove_background_ignores_new_content :
  let w1 := world_of (remove_background Sample.decode Sample.segment
                        "static/uploads/in.png" "static/uploads/out.png"
                        Sample.world) in
  let w2 := with_file "static/uploads/in.png" (FPng Sample.on_green) (next_run w1) in
  fs Sample.world !! "static/uploads/in.png" = Some (FPng Sample.picture) /\
  fs w2 !! "static/uploads/in.png" = Some (FPng Sample.on_green) /\
  Sample.on_green <> Sample.picture /\
  remove_background Sample.decode Sample.segment
    "static/uploads/in.png" "static/uploads/out.png" w2
  = Ok "static/uploads/out.png" w2 /\
  remove_calls (trace w2) = [] /\
  fs w2 !! "static/uploads/out.png" = Some (FPng Sample.segmented) /\
  Sample.segment Sample.on_green <> Some Sample.segmented.
Proof.
  repeat split; try reflexivity; discriminate.
Qed.

(** ** The orchestrator *)

Section Orchestrator.

Variable secure_filename : string -> string.
Variable image_decode : list byte -> option Image.
Variable resize : Image -> Z * Z -> Image.
Variable rotate : Image -> Z -> Image.
Variable rembg_remove : Image -> option Image.

(** The pressed button's block, run to its end. *)
Lemma on_remove_clicked_run (w : World)
    (uploaded_name filename bg_color : string) (image_resized seg : Image)
    (color : Color) :
  cache w !! (temp_resized_path, rembg_img_path_of filename) = None ->
  no_pixels image_resized = false ->
  rembg_remove image_resized = Some seg ->
  no_pixels seg = false ->
  (bg_color <> "#FFFFFF" -> color_of_hex bg_color = Some color) ->
  on_remove_clicked image_decode rembg_remove
    uploaded_name filename image_resized bg_color w
  = Ok tt
      (mkWorld
         (<[rembg_img_path_of filename := FPng (final_image bg_color seg color)]>
            (<[temp_resized_path := FPng image_resized]> (fs w)))
         (<[(temp_resized_path, rembg_img_path_of filename)
              := rembg_img_path_of filename]> (cache w))
         (trace w ++
          [StProgress 0; StProgress 50; RembgRemove image_resized; StProgress 100;
           StImage (ShownFile (rembg_img_path_of filename)
                      (FPng (final_image bg_color seg color)))
             (final_caption bg_color filename);
           StDownloadButton ("Download Processed Image " +:+ filename)
             (FPng (final_image bg_color seg color))
             (rembg_img_name_of filename) "image/png";
           LoggingInfo ("Image processed and downloaded: " +:+ uploaded_name)])).
Proof.
  intros Hmiss Hpixels Hseg Hsegpixels Hcolor.
  unfold on_remove_clicked, final_image, final_caption.
  fold temp_resized_path. fold (rembg_img_path_of filename).
  set (out := rembg_img_path_of filename) in *.
  set (tmp := temp_resized_path) in *.
  rewrite bind_run; simpl.
  rewrite bind_run. unfold image_save at 1. rewrite Hpixels. simpl.
  rewrite bind_run; simpl.
  rewrite bind_run.
  erewrite (remove_background_miss _ _ _ tmp out image_resized seg);
    [|exact Hmiss|apply image_open_png; apply lookup_insert_eq|exact Hseg
     |exact Hsegpixels].
  simpl. do 2 (rewrite bind_run; simpl).
  destruct (String.eqb_spec bg_color "#FFFFFF") as [->|Hne]; simpl.
  - unfold st_image_path. rewrite bind_run.
    unfold read_file at 1; simpl. rewrite lookup_insert_eq. simpl.
    rewrite bind_run. unfold read_file; simpl. rewrite lookup_insert_eq. simpl.
    rewrite bind_run; simpl. unfold log; simpl.
    rewrite <- !app_assoc. reflexivity.
  - rewrite (Hcolor Hne). rewrite bind_run.
    erewrite replace_background_color_run;
      [|apply image_open_png; apply lookup_insert_eq|exact Hsegpixels].
    unfold st_image_path, with_file. simpl. rewrite bind_run.
    unfold read_file at 1; simpl. rewrite lookup_insert_eq. simpl.
    rewrite bind_run. unfold read_file; simpl. rewrite lookup_insert_eq. simpl.
    rewrite bind_run; simpl. unfold log; simpl.
    rewrite insert_insert_eq, <- !app_assoc. reflexivity.
Qed.

Lemma downloads_app (t1 t2 : list Event) :
  downloads (t1 ++ t2) = (downloads t1 ++ downloads t2)%list.
Proof. unfold downloads. apply omap_app. Qed.

Lemma remove_calls_app (t1 t2 : list Event) :
  remove_calls (t1 ++ t2) = (remove_calls t1 ++ remove_calls t2)%list.
Proof. unfold remove_calls. apply omap_app. Qed.

(** C3, as the code has it.  When the button is pressed and
    [remove_background] has no stored result for its two paths, the block
    segments the edited image once and delivers what it leaves at the output
    path: exactly the segmented image when the picker's value is the string
    "#FFFFFF" (no compositing takes place), and the segmented image
    composited onto the picked colour when the value is any other string. *)
Theorem default_color_skips_compositing (w : World)
    (uploaded_name filename bg_color : string) (image_resized seg : Image)
    (color : Color) :
  cache w !! (temp_resized_path, rembg_img_path_of filename) = None ->
  no_pixels image_resized = false ->
  rembg_remove image_resized = Some seg ->
  no_pixels seg = false ->
  (bg_color <> "#FFFFFF" -> color_of_hex bg_color = Some color) ->
  exists (w' : World) (final : Image),
    on_remove_clicked image_decode rembg_remove
      uploaded_name filename image_resized bg_color w = Ok tt w' /\
    final = (if String.eqb bg_color "#FFFFFF" then seg
             else replace_in_image seg color) /\
    fs w' !! rembg_img_path_of filename = Some (FPng final) /\
    downloads (trace w')
    = (downloads (trace w) ++ [(rembg_img_name_of filename, FPng final)])%list /\
    remove_calls (trace w') = (remove_calls (trace w) ++ [image_resized])%list.
Proof.
  intros Hmiss Hpixels Hseg Hsegpixels Hcolor.
  eexists. exists (final_image bg_color seg color).
  split; [by apply on_remove_clicked_run|].
  split; [done|]. simpl.
  split; [apply lookup_insert_eq|].
  by rewrite downloads_app, remove_calls_app.
Qed.

Local Abbreviation process_file' :=
  (process_file secure_filename image_decode resize rotate rembg_remove).
Local Abbreviation for_uploaded_files' :=
  (for_uploaded_files secure_filename image_decode resize rotate rembg_remove).

Lemma for_uploaded_files_app (pre post : list (UploadedFile * Widgets)) (w : World) :
  for_uploaded_files' (pre ++ post) w
  = match for_uploaded_files' pre w with
    | Ok _ w1 => for_uploaded_files' post w1
    | Raise e w1 => Raise e w1
    end.
Proof.
  revert w. induction pre as [|[f ui] pre IH]; intros w; simpl; [done|].
  rewrite !bind_run. destruct (process_file' f ui w) as [[] w1|e w1]; [|done].
  apply IH.
Qed.

Lemma process_file_oversized (uploaded_file : UploadedFile) (ui : Widgets)
    (im : Image) (w : World) :
  image_decode (buffer uploaded_file) = Some im ->
  MAX_FILE_SIZE < Z.of_nat (length (buffer uploaded_file)) ->
  process_file' uploaded_file ui w
  = Ok tt (with_events
             [StImage (ShownUpload uploaded_file)
                ("Original Image: " +:+ name uploaded_file);
              StError "File is too large. Please upload a smaller file."] w).
Proof.
  intros Himage Hbig. unfold process_file, check_file_size, st_image_upload.
  rewrite Himage.
  destruct (Z.ltb_spec MAX_FILE_SIZE (Z.of_nat (length (buffer uploaded_file))));
    [|lia].
  repeat (rewrite bind_run; simpl). unfold with_events; simpl.
  by rewrite <- app_assoc.
Qed.

(** An exception in one file's turn ends the loop: the files after it are
    not reached. *)
Lemma stage_failure_ends_the_loop (uploaded_file : UploadedFile) (ui : Widgets)
    (rest : list (UploadedFile * Widgets)) (w w' : World) (e : Exn) :
  process_file' uploaded_file ui w = Raise e w' ->
  for_uploaded_files' ((uploaded_file, ui) :: rest) w = Raise e w'.
Proof. intros Hraise. simpl. rewrite bind_run. by rewrite Hraise. Qed.

(** C7, as the code has it.  An image file over the size limit is shown,
    reported with the "too large" error and skipped; the files after it are
    processed just as the loop would process them from there without it.
    Any exception in a file's turn, on the other hand, ends the loop with
    that exception: the files after it are not processed. *)
Theorem oversized_file_does_not_stop_the_batch
    (pre post : list (UploadedFile * Widgets))
    (uploaded_file : UploadedFile) (ui : Widgets) (im : Image) (w : World) :
  image_decode (buffer uploaded_file) = Some im ->
  MAX_FILE_SIZE < Z.of_nat (length (buffer uploaded_file)) ->
  for_uploaded_files' (pre ++ (uploaded_file, ui) :: post) w
  = match for_uploaded_files' pre w with
    | Ok _ w1 =>
        for_uploaded_files' post
          (with_events
             [StImage (ShownUpload uploaded_file)
                ("Original Image: " +:+ name uploaded_file);
              StError "File is too large. Please upload a smaller file."] w1)
    | Raise e w1 => Raise e w1
    end /\
  forall (failing : UploadedFile) (ui' : Widgets) (e : Exn) (w1 w2 : World),
    process_file' failing ui' w1 = Raise e w2 ->
    for_uploaded_files' ((failing, ui') :: post) w1 = Raise e w2.
Proof.
  intros Himage Hbig. split.
  - rewrite for_uploaded_files_app.
    destruct (for_uploaded_files' pre w) as [[] w1|e w1]; [|done].
    simpl. rewrite bind_run. by rewrite (process_file_oversized _ _ im).
  - intros failing ui' e w1 w2. apply stage_failure_ends_the_loop.
Qed.

(** With "Crop Image" off and the button pressed, a file that passes the
    size check reaches the button's block under its sanitized name, with the
    resized and rotated image. *)
Lemma process_file_pressed (uploaded_file : UploadedFile) (ui : Widgets)
    (im : Image) (w : World) :
  image_decode (buffer uploaded_file) = Some im ->
  Z.of_nat (length (buffer uploaded_file)) <= MAX_FILE_SIZE ->
  crop ui = false ->
  button ui = true ->
  no_pixels (resize im (resize_width ui, resize_height ui)) = false ->
  no_pixels (rotate (resize im (resize_width ui, resize_height ui))
               (rotation_angle ui)) = false ->
  process_file' uploaded_file ui w
  = on_remove_clicked image_decode rembg_remove
      (name uploaded_file) (secure_filename (name uploaded_file))
      (rotate (resize im (resize_width ui, resize_height ui)) (rotation_angle ui))
      (bg_color ui)
      (with_events
         [StImage (ShownUpload uploaded_file)
            ("Original Image: " +:+ name uploaded_file);
          StImage (ShownImage (resize im (resize_width ui, resize_height ui)))
            ("Resized Image: " +:+ secure_filename (name uploaded_file));
          StImage (ShownImage
                     (rotate (resize im (resize_width ui, resize_height ui))
                        (rotation_angle ui)))
            "Rotated Image"]
         (with_file (os_path_join UPLOAD_FOLDER (secure_filename (name uploaded_file)))
            (FRaw (buffer uploaded_file)) w)).
Proof.
  intros Himage Hsize Hcrop Hbutton Hresized Hrotated.
  unfold process_file, check_file_size, st_image_upload, crop_step.
  rewrite Himage, Hcrop, Hbutton.
  destruct (Z.ltb_spec MAX_FILE_SIZE (Z.of_nat (length (buffer uploaded_file))));
    [lia|].
  do 4 (rewrite bind_run; simpl).
  rewrite bind_run. unfold st_image_pil at 1. rewrite Hresized. simpl.
  rewrite bind_run. unfold st_image_pil at 1. rewrite Hrotated. simpl.
  rewrite bind_run. simpl.
  unfold with_events, with_file; simpl. by rewrite <- !app_assoc.
Qed.

End Orchestrator.

(** ** What is offered for download *)

Lemma delivered_app (t1 t2 : list Event) :
  delivered (t1 ++ t2) = (delivered t1 ++ delivered t2)%list.
Proof. unfold delivered. apply omap_app. Qed.

Lemma silent_refl (w : World) : silent w w.
Proof. done. Qed.

Lemma silent_trans (w1 w2 w3 : World) : silent w1 w2 -> silent w2 w3 -> silent w1 w3.
Proof. unfold silent. congruence. Qed.

Lemma silent_log (e : Event) : delivered [e] = [] -> keeps silent (log e).
Proof.
  intros He w. unfold silent. simpl. by rewrite delivered_app, He, app_nil_r.
Qed.

Lemma silent_read_file (path : string) : keeps silent (read_file path).
Proof. intros w. unfold read_file. by destruct (fs w !! path). Qed.

Lemma silent_write_file (path : string) (c : FileContent) :
  keeps silent (write_file path c).
Proof. by intros w. Qed.

Lemma silent_image_save (im : Image) (path : string) :
  keeps silent (image_save im path).
Proof.
  unfold image_save. destruct (no_pixels im).
  - apply keeps_raise, silent_refl.
  - apply silent_write_file.
Qed.

Lemma silent_st_image_pil (im : Image) (caption : string) :
  keeps silent (st_image_pil im caption).
Proof.
  unfold st_image_pil. destruct (no_pixels im).
  - apply keeps_raise, silent_refl.
  - by apply silent_log.
Qed.

Lemma silent_st_image_path (path caption : string) :
  keeps silent (st_image_path path caption).
Proof.
  apply keeps_bind; [apply silent_trans|apply silent_read_file|].
  intros c. by apply silent_log.
Qed.

Lemma silent_crop_step (image_resized : Image) (ui : Widgets) :
  keeps silent (crop_step image_resized ui).
Proof.
  unfold crop_step. destruct (crop ui); [|apply keeps_ret, silent_refl].
  destruct (Pil.crop _ _) as [[]|cropped]; try (apply keeps_raise, silent_refl).
  apply keeps_bind; [apply silent_trans|apply silent_st_image_pil|].
  intros _. apply keeps_ret, silent_refl.
Qed.

Lemma offers_bind_silent (entry : list (string * string)) {A B}
    (m : M A) (f : A -> M B) :
  keeps silent m -> (forall a, offers entry (f a)) -> offers entry (m ≫= f).
Proof.
  intros Hm Hf w. rewrite bind_run. specialize (Hm w).
  destruct (m w) as [a w1|e w1]; simpl in Hm; [|done].
  specialize (Hf a w1). unfold silent in Hm.
  destruct (f a w1); by rewrite <- Hm.
Qed.

Lemma offers_nothing {A} (m : M A) : keeps silent m -> offers [] m.
Proof.
  intros Hm w. specialize (Hm w).
  destruct (m w); simpl in Hm; by rewrite ?app_nil_r.
Qed.

Section Offers.

Variable secure_filename : string -> string.
Variable image_decode : list byte -> option Image.
Variable resize : Image -> Z * Z -> Image.
Variable rotate : Image -> Z -> Image.
Variable rembg_remove : Image -> option Image.

Lemma silent_image_open (path : string) :
  keeps silent (image_open image_decode path).
Proof.
  apply keeps_bind; [apply silent_trans|apply silent_read_file|].
  intros [bytes|im]; [|apply keeps_ret, silent_refl].
  destruct (image_decode bytes); [apply keeps_ret|apply keeps_raise];
    apply silent_refl.
Qed.

Lemma silent_st_image_upload (file : UploadedFile) (caption : string) :
  keeps silent (st_image_upload image_decode file caption).
Proof.
  unfold st_image_upload. destruct (image_decode (buffer file)).
  - by apply silent_log.
  - apply keeps_raise, silent_refl.
Qed.

Lemma silent_remove_background (input_path output_path : string) :
  keeps silent (remove_background image_decode rembg_remove input_path output_path).
Proof.
  assert (keeps silent
            (remove_background_body image_decode rembg_remove input_path output_path))
    as Hbody.
  { apply keeps_bind; [apply silent_trans|apply silent_image_open|].
    intros input.
    apply keeps_bind; [apply silent_trans| |].
    - unfold call_remove.
      apply keeps_bind; [apply silent_trans|by apply silent_log|].
      intros _. destruct (rembg_remove input);
        [apply keeps_ret|apply keeps_raise]; apply silent_refl.
    - intros output.
      apply keeps_bind; [apply silent_trans|apply silent_image_save|].
      intros _. apply keeps_ret, silent_refl. }
  intros w. unfold remove_background.
  destruct (cache w !! (input_path, output_path)); [done|].
  specialize (Hbody w).
  by destruct (remove_background_body _ _ _ _ w).
Qed.

Lemma silent_replace_background_color (input_path output_path : string)
    (color : Color) :
  keeps silent (replace_background_color image_decode input_path output_path color).
Proof.
  apply keeps_bind; [apply silent_trans|apply silent_image_open|].
  intros image.
  apply keeps_bind; [apply silent_trans|apply silent_image_save|].
  intros _. apply keeps_ret, silent_refl.
Qed.

(** The pressed button's block offers one download when it runs to its
    end, under the output name and as "image/png", and none when it
    raises. *)
Lemma on_remove_clicked_offers (uploaded_name filename bg_color : string)
    (image_resized : Image) :
  offers [(rembg_img_name_of filename, "image/png")]
    (on_remove_clicked image_decode rembg_remove
       uploaded_name filename image_resized bg_color).
Proof.
  unfold on_remove_clicked.
  apply offers_bind_silent; [by apply silent_log|]. intros _.
  apply offers_bind_silent; [apply silent_image_save|]. intros _.
  apply offers_bind_silent; [by apply silent_log|]. intros _.
  apply offers_bind_silent; [apply silent_remove_background|].
  intros final_img_path.
  apply offers_bind_silent; [by apply silent_log|]. intros _.
  apply offers_bind_silent.
  { destruct (negb (bg_color =? "#FFFFFF")%string).
    - destruct (color_of_hex bg_color) as [color|];
        [|apply keeps_raise, silent_refl].
      apply keeps_bind;
        [apply silent_trans|apply silent_replace_background_color|].
      intros _. apply silent_st_image_path.
    - apply silent_st_image_path. }
  intros _.
  apply offers_bind_silent; [apply silent_read_file|]. intros data w.
  rewrite bind_run. simpl. by rewrite !delivered_app, app_nil_r.
Qed.

(** One file's turn of the loop offers one download when the file passes
    the size check, the button is pressed and the turn runs to its end; it
    offers none otherwise. *)
Lemma process_file_offers (uploaded_file : UploadedFile) (ui : Widgets) :
  offers (if button ui && fits uploaded_file
          then [(rembg_img_name_of (secure_filename (name uploaded_file)),
                 "image/png")]
          else [])
    (process_file secure_filename image_decode resize rotate rembg_remove
       uploaded_file ui).
Proof.
  unfold process_file.
  apply offers_bind_silent; [apply silent_st_image_upload|]. intros _ w.
  rewrite bind_run. unfold check_file_size, fits.
  destruct (Z.ltb_spec MAX_FILE_SIZE (Z.of_nat (length (buffer uploaded_file))))
    as [Hbig|Hfits].
  - rewrite bool_decide_eq_false_2, andb_false_r by lia. simpl.
    by rewrite delivered_app, !app_nil_r.
  - rewrite bool_decide_eq_true_2, andb_true_r by lia. simpl.
    revert w.
    apply offers_bind_silent; [apply silent_write_file|]. intros _.
    apply offers_bind_silent.
    { destruct (image_decode (buffer uploaded_file));
        [apply keeps_ret|apply keeps_raise]; apply silent_refl. }
    intros image.
    apply offers_bind_silent; [apply silent_st_image_pil|]. intros _.
    apply offers_bind_silent; [apply silent_st_image_pil|]. intros _.
    apply offers_bind_silent; [apply silent_crop_step|]. intros image_resized.
    destruct (button ui).
    + apply on_remove_clicked_offers.
    + apply offers_nothing, keeps_ret, silent_refl.
Qed.

(** A run of the script on one upload. *)
Lemma main_offers (uploaded_file : UploadedFile) (ui : Widgets) :
  offers (if button ui && fits uploaded_file
          then [(rembg_img_name_of (secure_filename (name uploaded_file)),
                 "image/png")]
          else [])
    (main secure_filename image_decode resize rotate rembg_remove
       [(uploaded_file, ui)]).
Proof.
  unfold main.
  apply offers_bind_silent; [by apply silent_log|]. intros _ w.
  simpl. rewrite bind_run.
  pose proof (process_file_offers uploaded_file ui w) as H.
  by destruct (process_file _ _ _ _ _ _ _ w).
Qed.

End Offers.

(** C6, as the code has it.  The output name is built from the sanitized
    name of the upload.  When [secure_filename] makes of the upload's name a
    stem and an extension with a single dot between them, a run of the script
    on that upload offers, when the file passes the size check, the button is
    pressed and the run reaches its end, exactly one download, named by the
    stem followed by "_rembg.png" and typed "image/png", whatever the
    extension, the picked colour and the cache hold; in every other case it
    offers none. *)
Theorem delivered_name_is_stem_rembg_png
    (secure_filename : string -> string) (image_decode : list byte -> option Image)
    (resize : Image -> Z * Z -> Image) (rotate : Image -> Z -> Image)
    (rembg_remove : Image -> option Image)
    (uploaded_file : UploadedFile) (ui : Widgets) (stem ext : string) (w : World) :
  secure_filename (name uploaded_file) = stem +:+ "." +:+ ext ->
  Str.contains "." stem = false ->
  Str.contains "." ext = false ->
  base_name (secure_filename (name uploaded_file)) = stem /\
  match main secure_filename image_decode resize rotate rembg_remove
          [(uploaded_file, ui)] w with
  | Ok _ w' =>
      delivered (trace w')
      = (delivered (trace w) ++
         if button ui && fits uploaded_file
         then [(stem +:+ "_rembg.png", "image/png")] else [])%list
  | Raise _ w' => delivered (trace w') = delivered (trace w)
  end.
Proof.
  intros Hname Hstem Hext.
  split; [rewrite Hname; by apply base_name_single_dot|].
  pose proof (main_offers secure_filename image_decode resize rotate rembg_remove
                uploaded_file ui w) as H.
  by rewrite Hname, (rembg_img_name_of_cut stem ext Hstem) in H.
Qed.

Lemma default_color_skips_compositing_witness :
  exists (w' : World) (final : Image),
    on_remove_clicked Sample.decode Sample.segment
      "photo.jpg" "photo.jpg" Sample.picture "#FFFFFF" empty_world = Ok tt w' /\
    final = (if String.eqb "#FFFFFF" "#FFFFFF" then Sample.segmented
             else replace_in_image Sample.segmented Sample.green) /\
    fs w' !! rembg_img_path_of "photo.jpg" = Some (FPng final) /\
    downloads (trace w')
    = (downloads (trace empty_world)
       ++ [(rembg_img_name_of "photo.jpg", FPng final)])%list /\
    remove_calls (trace w')
    = (remove_calls (trace empty_world) ++ [Sample.picture])%list.
Proof.
  apply (default_color_skips_compositing Sample.decode Sample.segment empty_world
           "photo.jpg" "photo.jpg" "#FFFFFF" Sample.picture Sample.segmented
           Sample.green).
  - reflexivity.
  - reflexivity.
  - reflexivity.
  - reflexivity.
  - intros Hne. exfalso. apply Hne. reflexivity.
Defined.

Lemma delivered_name_is_stem_rembg_png_witness :
  base_name (Sample.secure_filename (name (mkUpload "My cool photo.jpg" [x01])))
  = "My_cool_photo" /\
  match main Sample.secure_filename Sample.decode Sample.resize Sample.rotate
          Sample.segment
          [(mkUpload "My cool photo.jpg" [x01], Sample.widgets "#00FF00" true)]
          empty_world with
  | Ok _ w' =>
      delivered (trace w')
      = (delivered (trace empty_world) ++
         if button (Sample.widgets "#00FF00" true)
            && fits (mkUpload "My cool photo.jpg" [x01])
         then [("My_cool_photo" +:+ "_rembg.png", "image/png")] else [])%list
  | Raise _ w' => delivered (trace w') = delivered (trace empty_world)
  end.
Proof.
  apply (delivered_name_is_stem_rembg_png Sample.secure_filename Sample.decode
           Sample.resize Sample.rotate Sample.segment
           (mkUpload "My cool photo.jpg" [x01])
           (Sample.widgets "#00FF00" true) "My_cool_photo" "jpg" empty_world).
  - reflexivity.
  - reflexivity.
  - reflexivity.
Defined.

(** The same upload, run: sanitized, segmented, composited and offered. *)
Example sanitized_name_is_delivered :
  let r := Sample.run [(mkUpload "My cool photo.jpg" [x01],
                        Sample.widgets "#00FF00" true)] empty_world in
  raised r = None /\
  delivered (trace (world_of r)) = [("My_cool_photo_rembg.png", "image/png")].
Proof. split; reflexivity. Qed.

(** C6 as claimed fails, in two ways.

    The name is sanitized before the output name is built: "My cool
    photo.jpg" becomes "My_cool_photo.jpg" and is offered as
    "My_cool_photo_rembg.png", which is not the source file's base name
    "My cool photo" with the suffix.

    The name is cut at its first dot: "my.photo.jpg", which sanitizing
    leaves alone, is offered as "my_rembg.png", while its base name is
    "my.photo". *)
Lemma delivered_name_is_not_always_the_base_name :
  let blanks := mkUpload "My cool photo.jpg" [x01] in
  let dots := mkUpload "my.photo.jpg" [x01] in
  let r1 := Sample.run [(blanks, Sample.widgets "#FFFFFF" true)] empty_world in
  let r2 := Sample.run [(dots, Sample.widgets "#FFFFFF" true)] empty_world in
  (raised r1 = None /\
   downloads (trace (world_of r1))
   = [("My_cool_photo_rembg.png", FPng Sample.segmented)] /\
   base_name (name blanks) +:+ "_rembg.png" = "My cool photo_rembg.png") /\
  (raised r2 = None /\
   downloads (trace (world_of r2)) = [("my_rembg.png", FPng Sample.segmented)] /\
   base_name (name dots) +:+ "_rembg.png" = "my.photo_rembg.png").
Proof. repeat split; reflexivity. Qed.

(** With the default colour and a fresh cache the delivered file is the
    segmented image, transparent pixels included; with green it is the
    composite. *)
Example first_run_delivers :
  downloads (trace (world_of
    (Sample.run [(Sample.photo, Sample.widgets "#FFFFFF" true)] empty_world)))
  = [("photo_rembg.png", FPng Sample.segmented)] /\
  downloads (trace (world_of
    (Sample.run [(Sample.photo, Sample.widgets "#00FF00" true)] empty_world)))
  = [("photo_rembg.png", FPng Sample.on_green)].
Proof. split; reflexivity. Qed.

(** C3 as claimed fails, in two ways.

    The guard compares the picker's text.  With "#ffffff" picked, which is
    the colour (255, 255, 255) of the default, the compositing step runs
    and the delivered file has an opaque white background.

    The delivered file is whatever lies at the output path.  First run:
    "photo.jpg" with green picked and the button pressed.  Second run: the
    same file with the default "#FFFFFF" and the button pressed.
    [remove_background] finds its two paths in the cache and writes nothing,
    so the file delivered in the second run is the green composite the first
    run left there, not the segmented image. *)
Lemma default_color_is_not_always_left_transparent :
  let white := Sample.run [(Sample.photo, Sample.widgets "#ffffff" true)]
                 empty_world in
  let w1 := world_of
              (Sample.run [(Sample.photo, Sample.widgets "#00FF00" true)]
                 empty_world) in
  let r2 := Sample.run [(Sample.photo, Sample.widgets "#FFFFFF" true)]
              (next_run w1) in
  Sample.segment Sample.picture = Some Sample.segmented /\
  (color_of_hex "#ffffff" = Some (255, 255, 255) /\
   color_of_hex "#FFFFFF" = Some (255, 255, 255) /\
   raised white = None /\
   downloads (trace (world_of white)) = [("photo_rembg.png", FPng Sample.on_white)] /\
   Sample.on_white <> Sample.segmented) /\
  (raised r2 = None /\
   downloads (trace (world_of r2)) = [("photo_rembg.png", FPng Sample.on_green)] /\
   remove_calls (trace (world_of r2)) = [] /\
   Sample.on_green <> Sample.segmented).
Proof. repeat split; try reflexivity; discriminate. Qed.

Lemma oversized_length :
  Z.of_nat (length (buffer Sample.oversized)) = 10 * 1024 * 1024 + 1.
Proof.
  unfold Sample.oversized. cbn [buffer].
  apply (zero_buffer_length (10 * 1024 * 1024 + 1)). lia.
Qed.

Lemma oversized_decodes :
  Sample.decode (buffer Sample.oversized) = Some Sample.picture.
Proof.
  unfold Sample.oversized. cbn [buffer].
  replace (10 * 1024 * 1024 + 1) with (Z.succ (10 * 1024 * 1024)) by lia.
  rewrite Z2Nat.inj_succ by lia. reflexivity.
Qed.

Lemma oversized_file_does_not_stop_the_batch_witness :
  for_uploaded_files Sample.secure_filename Sample.decode Sample.resize Sample.rotate
    Sample.segment
    ([] ++ (Sample.oversized, Sample.widgets "#FFFFFF" false)
        :: [(Sample.photo, Sample.widgets "#FFFFFF" true)]) empty_world
  = match for_uploaded_files Sample.secure_filename Sample.decode Sample.resize
            Sample.rotate Sample.segment [] empty_world with
    | Ok _ w1 =>
        for_uploaded_files Sample.secure_filename Sample.decode Sample.resize
          Sample.rotate Sample.segment
          [(Sample.photo, Sample.widgets "#FFFFFF" true)]
          (with_events
             [StImage (ShownUpload Sample.oversized)
                ("Original Image: " +:+ name Sample.oversized);
              StError "File is too large. Please upload a smaller file."] w1)
    | Raise e w1 => Raise e w1
    end /\
  forall (failing : UploadedFile) (ui' : Widgets) (e : Exn) (w1 w2 : World),
    process_file Sample.secure_filename Sample.decode Sample.resize Sample.rotate
      Sample.segment failing ui' w1 = Raise e w2 ->
    for_uploaded_files Sample.secure_filename Sample.decode Sample.resize
      Sample.rotate Sample.segment
      ((failing, ui') :: [(Sample.photo, Sample.widgets "#FFFFFF" true)]) w1
    = Raise e w2.
Proof.
  apply (oversized_file_does_not_stop_the_batch Sample.secure_filename Sample.decode
           Sample.resize Sample.rotate Sample.segment
           [] [(Sample.photo, Sample.widgets "#FFFFFF" true)]
           Sample.oversized (Sample.widgets "#FFFFFF" false) Sample.picture
           empty_world).
  - exact oversized_decodes.
  - rewrite oversized_length. unfold MAX_FILE_SIZE. lia.
Defined.

(** C7 as claimed fails.  "photo.jpg" alone, button pressed, is delivered.
    In a batch behind "broken.png" (an empty file: it passes the size check
    and Pillow cannot open it) the exception ends the run before "photo.jpg"
    is looked at: nothing of it is shown and nothing is delivered. *)
Lemma undecodable_file_stops_the_batch :
  let alone := Sample.run [(Sample.photo, Sample.widgets "#FFFFFF" true)]
                 empty_world in
  let batch := Sample.run [(Sample.broken, Sample.widgets "#FFFFFF" false);
                           (Sample.photo, Sample.widgets "#FFFFFF" true)]
                 empty_world in
  raised alone = None /\
  downloads (trace (world_of alone)) = [("photo_rembg.png", FPng Sample.segmented)] /\
  check_file_size Sample.broken empty_world = Ok true empty_world /\
  raised batch = Some UnidentifiedImageError /\
  downloads (trace (world_of batch)) = [] /\
  trace (world_of batch) = [StTitle "Background Remover with Streamlit"].
Proof. repeat split; reflexivity. Qed.

(** The same with a failure of the segmentation model: the first file is
    cropped to a single column, the model fails on it, and the second file
    is not reached. *)
Example segmentation_failure_stops_the_batch :
  let column := mkWidgets 100 100 0 true 49 49 50 51 "Default Model" "#FFFFFF" true in
  let batch := Sample.run [(Sample.photo, column);
                           (mkUpload "second.jpg" [x01], Sample.widgets "#FFFFFF" false)]
                 empty_world in
  raised batch = Some RembgError /\
  remove_calls (trace (world_of batch))
  = [mkImage RGBA 1 2 [((9, 9, 9), 255); ((1, 2, 3), 0)]] /\
  Forall (fun e => e <> StImage (ShownUpload (mkUpload "second.jpg" [x01]))
                         "Original Image: second.jpg")
    (trace (world_of batch)).
Proof.
  repeat split; try reflexivity.
  vm_compute. repeat constructor; discriminate.
Qed.

(** ** The picked colour *)

Lemma hex_digit_range (c : ascii) (d : Z) :
  Str.hex_digit c = Some d -> 0 <= d <= 15.
Proof.
  unfold Str.hex_digit.
  set (n := Z.of_nat (nat_of_ascii c)).
  destruct (Z.leb_spec 48 n), (Z.leb_spec n 57); simpl;
    try (intros [= <-]; lia);
    destruct (Z.leb_spec 97 n), (Z.leb_spec n 102); simpl;
    try (intros [= <-]; lia);
    destruct (Z.leb_spec 65 n), (Z.leb_spec n 70); simpl;
    try (intros [= <-]; lia); discriminate.
Qed.

Lemma substring_short (s : string) (n m : nat) :
  (String.length (substring n m s) <= m)%nat.
Proof.
  revert n m. induction s as [|c s IH]; intros [|n] [|m]; simpl; try lia.
  - specialize (IH 0%nat m). lia.
  - apply IH.
  - apply IH.
Qed.

Lemma slice2_short (i : nat) (s : string) :
  (String.length (Str.slice2 i s) <= 2)%nat.
Proof. apply substring_short. Qed.

Lemma int16_byte (s : string) (v : Z) :
  (String.length s <= 2)%nat -> Str.int16 s = Some v -> channel_ok v.
Proof.
  unfold channel_ok.
  destruct s as [|a [|b [|c s]]]; simpl; intros Hlen Hv; try lia; try done.
  - destruct (Str.hex_digit a) as [da|] eqn:Ha; [|done].
    apply hex_digit_range in Ha. injection Hv as <-. lia.
  - destruct (Str.hex_digit a) as [da|] eqn:Ha; [|done].
    destruct (Str.hex_digit b) as [db|] eqn:Hb; [|done].
    apply hex_digit_range in Ha, Hb. injection Hv as <-. lia.
Qed.

(** X3: when the three pairs of characters after the "#" of the picker's
    text are read as hexadecimal numbers, each channel of the colour lies in
    0..255, so it can be stored in a pixel without clipping. *)
Lemma color_of_hex_valid (bg_color : string) (color : Color) :
  color_of_hex bg_color = Some color -> valid_color color.
Proof.
  unfold color_of_hex.
  destruct (Str.int16 (Str.slice2 1 bg_color)) as [r|] eqn:Hr; [|done].
  destruct (Str.int16 (Str.slice2 3 bg_color)) as [g|] eqn:Hg; [|done].
  destruct (Str.int16 (Str.slice2 5 bg_color)) as [b|] eqn:Hb; [|done].
  simpl. intros [= <-]. unfold valid_color; simpl.
  repeat split; eapply int16_byte; eauto using slice2_short.
Qed.

(** * Further properties *)

(** ** File names *)

Lemma split_nonempty (sep : ascii) (s : string) : Str.split sep s <> [].
Proof.
  destruct s as [|c s]; simpl; [done|].
  destruct (Ascii.eqb c sep); [done|]. by destruct (Str.split sep s).
Qed.

(** Joining what [split] returned gives the string back. *)
Lemma concat_split (sep : ascii) (s : string) :
  String.concat (String sep EmptyString) (Str.split sep s) = s.
Proof.
  induction s as [|c s IH]; simpl; [done|].
  destruct (Ascii.eqb_spec c sep) as [->|Hne].
  - pose proof (split_nonempty sep s) as Hs.
    destruct (Str.split sep s) as [|h t] eqn:E; [done|].
    simpl in *. by rewrite IH.
  - destruct (Str.split sep s) as [|h t] eqn:E; [by destruct (split_nonempty sep s)|].
    destruct t as [|h' t]; simpl in *; by rewrite <- IH.
Qed.

Lemma split_app_sep (sep : ascii) (a b : string) :
  Str.split sep (a +:+ String sep b) = (Str.split sep a ++ Str.split sep b)%list.
Proof.
  induction a as [|c a IH]; simpl.
  - by rewrite Ascii.eqb_refl.
  - destruct (Ascii.eqb c sep); simpl; [by rewrite IH|].
    rewrite IH.
    destruct (Str.split sep a) as [|h t] eqn:E; [by destruct (split_nonempty sep a)|].
    done.
Qed.

Lemma rsplit1_last_dot (sep : ascii) (stem ext : string) :
  Str.contains sep ext = false ->
  Str.rsplit1 sep (stem +:+ String sep ext) = [stem; ext].
Proof.
  intros Hext. unfold Str.rsplit1.
  rewrite split_app_sep, (split_without_sep sep ext Hext), reverse_snoc.
  pose proof (split_nonempty sep stem) as Hs.
  destruct (reverse (Str.split sep stem)) as [|h t] eqn:E.
  - apply (f_equal reverse) in E. rewrite reverse_involutive in E. done.
  - rewrite <- E, reverse_involutive, concat_split. done.
Qed.

Lemma contains_app (sep : ascii) (a b : string) :
  Str.contains sep (a +:+ b) = Str.contains sep a || Str.contains sep b.
Proof.
  induction a as [|c a IH]; simpl; [done|]. by rewrite IH, orb_assoc.
Qed.

(** A string with a separator in it is cut at its last one. *)
Lemma cut_at_last (sep : ascii) (s : string) :
  Str.contains sep s = true ->
  exists stem ext, s = stem +:+ String sep ext /\ Str.contains sep ext = false.
Proof.
  induction s as [|c s IH]; simpl; [done|].
  destruct (Str.contains sep s) eqn:Hs.
  - intros _. destruct (IH eq_refl) as (stem & ext & -> & Hext).
    by exists (String c stem), ext.
  - rewrite orb_false_r. intros Hc%Ascii.eqb_eq. subst c.
    by exists EmptyString, s.
Qed.

(** X1: [allowed_file] accepts exactly the names whose text after the last
    dot is, in lower case, one of the four allowed extensions; a name
    without a dot is refused. *)
Theorem allowed_file_by_last_extension (filename : string) :
  allowed_file filename = true <->
  exists stem ext,
    filename = stem +:+ "." +:+ ext /\
    Str.contains "." ext = false /\
    Str.lower ext ∈ ALLOWED_EXTENSIONS.
Proof.
  unfold allowed_file. split.
  - intros [Hdot Hext]%andb_true_iff.
    destruct (cut_at_last _ _ Hdot) as (stem & ext & -> & Hnodot).
    rewrite (rsplit1_last_dot _ _ _ Hnodot) in Hext.
    apply bool_decide_eq_true in Hext. by exists stem, ext.
  - intros (stem & ext & -> & Hnodot & Hin).
    change (stem +:+ "." +:+ ext) with (stem +:+ String "."%char ext).
    rewrite (rsplit1_last_dot _ _ _ Hnodot), contains_app. simpl.
    rewrite orb_true_r. simpl. by apply bool_decide_eq_true.
Qed.

(** ** The picked colour, continued *)

Lemma hex_digit_lower (c : ascii) :
  Str.hex_digit (Str.lower_ascii c) = Str.hex_digit c.
Proof. destruct c as [[] [] [] [] [] [] [] []]; reflexivity. Qed.

Lemma int16_digits_lower (s : string) (acc : Z) :
  Str.int16_digits acc (Str.lower s) = Str.int16_digits acc s.
Proof.
  revert acc. induction s as [|c s IH]; intros acc; simpl; [done|].
  rewrite hex_digit_lower. destruct (Str.hex_digit c); [apply IH|done].
Qed.

Lemma int16_lower (s : string) : Str.int16 (Str.lower s) = Str.int16 s.
Proof. destruct s as [|c s]; [done|]. apply (int16_digits_lower (String c s)). Qed.

Lemma substring_lower (s : string) (n m : nat) :
  substring n m (Str.lower s) = Str.lower (substring n m s).
Proof.
  revert n m. induction s as [|c s IH]; intros [|n] [|m]; simpl; try done.
  - by rewrite IH.
Qed.

(** X2: the colour read from the picker's text does not depend on the case
    of its letters. *)
Theorem color_of_hex_ignores_case (bg_color : string) :
  color_of_hex (Str.lower bg_color) = color_of_hex bg_color.
Proof.
  unfold color_of_hex, Str.slice2.
  by rewrite !substring_lower, !int16_lower.
Qed.

(** ** [remove_background], continued *)

(** X4: a failed segmentation is not cached: the call raises, the files and
    the cache stay as they were, and the same call made again calls the model
    again. *)
Theorem remove_background_failure_is_not_cached
    (image_decode : list byte -> option Image) (rembg_remove : Image -> option Image)
    (w : World) (input_path output_path : string) (im : Image) :
  cache w !! (input_path, output_path) = None ->
  image_open image_decode input_path w = Ok im w ->
  rembg_remove im = None ->
  exists w1,
    remove_background image_decode rembg_remove input_path output_path w
    = Raise RembgError w1 /\
    fs w1 = fs w /\
    cache w1 = cache w /\
    remove_calls (trace w1) = (remove_calls (trace w) ++ [im])%list /\
    exists w2,
      remove_background image_decode rembg_remove input_path output_path w1
      = Raise RembgError w2 /\
      remove_calls (trace w2) = (remove_calls (trace w) ++ [im; im])%list.
Proof.
  intros Hmiss Hopen Hfail.
  exists (with_events [RembgRemove im] w).
  split; [by apply remove_background_failure|].
  split; [done|]. split; [done|].
  split; [simpl; by rewrite remove_calls_app|].
  exists (with_events [RembgRemove im] (with_events [RembgRemove im] w)).
  split.
  - apply remove_background_failure; try done.
    unfold image_open, read_file, mbind, M_bind in *. simpl.
    destruct (fs w !! input_path) as [[bytes|im']|]; [| |done].
    + destruct (image_decode bytes); [|done]. by injection Hopen as <-.
    + by injection Hopen as <-.
  - simpl. by rewrite !remove_calls_app, <- app_assoc.
Qed.

(** X5: when the input file does not exist, [remove_background] raises
    FileNotFoundError and changes nothing, unless its two paths are in the
    cache: then it returns the cached path all the same. *)
Theorem remove_background_without_input
    (image_decode : list byte -> option Image) (rembg_remove : Image -> option Image)
    (w : World) (input_path output_path : string) :
  fs w !! input_path = None ->
  remove_background image_decode rembg_remove input_path output_path w
  = match cache w !! (input_path, output_path) with
    | Some v => Ok v w
    | None => Raise (FileNotFoundError input_path) w
    end.
Proof.
  intros Hnone. unfold remove_background.
  destruct (cache w !! (input_path, output_path)); [done|].
  unfold remove_background_body, image_open, read_file, mbind, M_bind.
  by rewrite Hnone.
Qed.

(** ** [replace_background_color], continued *)

(** When the input file does not exist, [replace_background_color]
    raises FileNotFoundError and writes nothing. *)
Lemma replace_background_color_without_input
    (image_decode : list byte -> option Image)
    (w : World) (input_path output_path : string) (color : Color) :
  fs w !! input_path = None ->
  replace_background_color image_decode input_path output_path color w
  = Raise (FileNotFoundError input_path) w.
Proof.
  intros Hnone.
  unfold replace_background_color, image_open, read_file, mbind, M_bind.
  by rewrite Hnone.
Qed.

Lemma image_eq (a b : Image) :
  mode a = mode b -> width a = width b -> height a = height b ->
  data a = data b -> a = b.
Proof. destruct a, b; simpl. by intros -> -> -> ->. Qed.

(** X6: an image without an alpha channel is only converted: the stored
    image is "RGBA" with every pixel's colour as it was and alpha 255,
    whatever colour was asked for. *)
Theorem replace_background_color_on_rgb
    (image_decode : list byte -> option Image)
    (w : World) (input_path output_path : string) (color : Color) (im : Image) :
  image_open image_decode input_path w = Ok im w ->
  mode im = RGB ->
  valid_image im ->
  replace_background_color image_decode input_path output_path color w
  = Ok output_path
      (with_file output_path
         (FPng (mkImage RGBA (width im) (height im)
                  (map (fun p : Pixel => (p.1, 255)) (data im)))) w).
Proof.
  intros Hopen Hmode Hvalid.
  rewrite (replace_background_color_run _ _ _ _ _ im Hopen)
    by (by apply valid_image_has_pixels).
  destruct (replace_in_image_size im color) as (Hw & Hh & _).
  do 3 f_equal. apply image_eq.
  - apply replace_in_image_mode.
  - exact Hw.
  - exact Hh.
  - rewrite replace_in_image_data. unfold convert_RGBA. rewrite Hmode. simpl.
    rewrite map_map. apply map_ext_Forall.
    destruct Hvalid as (_ & _ & _ & Hpx).
    eapply Forall_impl; [exact Hpx|]. intros [rgb a] [Hrgb Ha]. simpl.
    unfold replace_pixel, alpha. simpl.
    apply clip_pixel_id. split; [done|]. unfold channel_ok. simpl. lia.
Qed.

(** X7: an "RGBA" image without a fully transparent pixel is stored as it
    is, partially transparent pixels included. *)
Theorem replace_background_color_nothing_to_replace
    (image_decode : list byte -> option Image)
    (w : World) (input_path output_path : string) (color : Color) (im : Image) :
  image_open image_decode input_path w = Ok im w ->
  mode im = RGBA ->
  valid_image im ->
  Forall (fun p => alpha p <> 0) (data im) ->
  replace_background_color image_decode input_path output_path color w
  = Ok output_path (with_file output_path (FPng im) w).
Proof.
  intros Hopen Hmode Hvalid Hopaque.
  rewrite (replace_background_color_run _ _ _ _ _ im Hopen)
    by (by apply valid_image_has_pixels).
  destruct (replace_in_image_size im color) as (Hw & Hh & _).
  do 3 f_equal. apply image_eq.
  - rewrite replace_in_image_mode. done.
  - exact Hw.
  - exact Hh.
  - rewrite replace_in_image_data, (convert_RGBA_of_RGBA _ Hmode).
    rewrite <- (map_id (data im)) at 2. apply map_ext_Forall.
    destruct Hvalid as (_ & _ & _ & Hpx).
    eapply Forall_impl; [apply Forall_and; split; [exact Hpx|exact Hopaque]|].
    simpl. intros p [Hp Ha]. unfold replace_pixel.
    destruct (Z.eqb_spec (alpha p) 0); [done|]. by apply clip_pixel_id.
Qed.

(** ** What a run keeps *)

Lemma files_within_refl (P : string -> Prop) (w : World) : files_within P w w.
Proof. by split. Qed.

Lemma files_within_trans (P : string -> Prop) (w1 w2 w3 : World) :
  files_within P w1 w2 -> files_within P w2 w3 -> files_within P w1 w3.
Proof.
  intros [Hd1 Hf1] [Hd2 Hf2]. split.
  - intros p Hp. by apply Hd2, Hd1.
  - intros p Hp. by rewrite Hf2, Hf1.
Qed.

Lemma same_cache_within_refl (P : string -> Prop) (w : World) :
  same_cache_within P w w.
Proof. split; [done|apply files_within_refl]. Qed.

Lemma same_cache_within_trans (P : string -> Prop) (w1 w2 w3 : World) :
  same_cache_within P w1 w2 -> same_cache_within P w2 w3 ->
  same_cache_within P w1 w3.
Proof.
  intros [Hc1 Hf1] [Hc2 Hf2]. split; [congruence|].
  by eapply files_within_trans.
Qed.

Lemma grows_within_refl (P : string -> Prop) (w : World) : grows_within P w w.
Proof. split; [done|apply files_within_refl]. Qed.

Lemma grows_within_trans (P : string -> Prop) (w1 w2 w3 : World) :
  grows_within P w1 w2 -> grows_within P w2 w3 -> grows_within P w1 w3.
Proof.
  intros [Hc1 Hf1] [Hc2 Hf2]. split; [by etrans|].
  by eapply files_within_trans.
Qed.

Lemma keeps_same_cache_grows (P : string -> Prop) {A} (m : M A) :
  keeps (same_cache_within P) m -> keeps (grows_within P) m.
Proof. intros Hm w. destruct (Hm w) as [Hc Hf]. split; [by rewrite Hc|done]. Qed.

Section Within.

Variable P : string -> Prop.
Variable image_decode : list byte -> option Image.
Variable rembg_remove : Image -> option Image.

Lemma within_log (e : Event) : keeps (same_cache_within P) (log e).
Proof. intros w. split; [done|]. by split. Qed.

Lemma within_read_file (path : string) : keeps (same_cache_within P) (read_file path).
Proof.
  intros w. unfold read_file. destruct (fs w !! path); apply same_cache_within_refl.
Qed.

Lemma within_write_file (path : string) (c : FileContent) :
  P path -> keeps (same_cache_within P) (write_file path c).
Proof.
  intros Hpath w. split; [done|]. split; simpl.
  - intros p Hp. destruct (decide (path = p)) as [->|Hne].
    + rewrite lookup_insert_eq. by eexists.
    + by rewrite lookup_insert_ne.
  - intros p Hp. apply lookup_insert_ne. by intros ->.
Qed.

Lemma within_image_open (path : string) :
  keeps (same_cache_within P) (image_open image_decode path).
Proof.
  apply keeps_bind; [apply same_cache_within_trans|apply within_read_file|].
  intros [bytes|im]; [|apply keeps_ret, same_cache_within_refl].
  destruct (image_decode bytes);
    [apply keeps_ret|apply keeps_raise]; apply same_cache_within_refl.
Qed.

Lemma within_image_save (im : Image) (path : string) :
  P path -> keeps (same_cache_within P) (image_save im path).
Proof.
  intros Hpath. unfold image_save. destruct (no_pixels im).
  - apply keeps_raise, same_cache_within_refl.
  - by apply within_write_file.
Qed.

Lemma within_st_image_pil (im : Image) (caption : string) :
  keeps (same_cache_within P) (st_image_pil im caption).
Proof.
  unfold st_image_pil. destruct (no_pixels im).
  - apply keeps_raise, same_cache_within_refl.
  - apply within_log.
Qed.

Lemma within_st_image_upload (file : UploadedFile) (caption : string) :
  keeps (same_cache_within P) (st_image_upload image_decode file caption).
Proof.
  unfold st_image_upload. destruct (image_decode (buffer file)).
  - apply within_log.
  - apply keeps_raise, same_cache_within_refl.
Qed.

Lemma within_st_image_path (path caption : string) :
  keeps (same_cache_within P) (st_image_path path caption).
Proof.
  apply keeps_bind; [apply same_cache_within_trans|apply within_read_file|].
  intros c. apply within_log.
Qed.

Lemma within_check_file_size (file : UploadedFile) :
  keeps (same_cache_within P) (check_file_size file).
Proof.
  unfold check_file_size.
  destruct (MAX_FILE_SIZE <? Z.of_nat (length (buffer file))).
  - apply keeps_bind; [apply same_cache_within_trans|apply within_log|].
    intros _. apply keeps_ret, same_cache_within_refl.
  - apply keeps_ret, same_cache_within_refl.
Qed.

Lemma within_crop_step (image_resized : Image) (ui : Widgets) :
  keeps (same_cache_within P) (crop_step image_resized ui).
Proof.
  unfold crop_step. destruct (crop ui); [|apply keeps_ret, same_cache_within_refl].
  destruct (Pil.crop _ _) as [[]|cropped];
    try (apply keeps_raise, same_cache_within_refl).
  apply keeps_bind; [apply same_cache_within_trans|apply within_st_image_pil|].
  intros _. apply keeps_ret, same_cache_within_refl.
Qed.

Lemma within_remove_background_body (input_path output_path : string) :
  P output_path ->
  keeps (same_cache_within P)
    (remove_background_body image_decode rembg_remove input_path output_path).
Proof.
  intros Hout.
  apply keeps_bind; [apply same_cache_within_trans|apply within_image_open|].
  intros input.
  apply keeps_bind; [apply same_cache_within_trans| |].
  - unfold call_remove.
    apply keeps_bind; [apply same_cache_within_trans|apply within_log|].
    intros _. destruct (rembg_remove input);
      [apply keeps_ret|apply keeps_raise]; apply same_cache_within_refl.
  - intros output.
    apply keeps_bind; [apply same_cache_within_trans|by apply within_image_save|].
    intros _. apply keeps_ret, same_cache_within_refl.
Qed.

Lemma within_remove_background (input_path output_path : string) :
  P output_path ->
  keeps (grows_within P)
    (remove_background image_decode rembg_remove input_path output_path).
Proof.
  intros Hout w. unfold remove_background.
  destruct (cache w !! (input_path, output_path)) eqn:Hkey;
    [apply grows_within_refl|].
  pose proof (within_remove_background_body input_path output_path Hout w) as Hbody.
  destruct (remove_background_body _ _ _ _ w) as [v w1|e w1]; simpl in *.
  - destruct Hbody as [Hcache Hfiles]. split; [|done]. simpl.
    rewrite Hcache. by apply insert_subseteq.
  - destruct Hbody as [Hcache Hfiles]. split; [by rewrite Hcache|done].
Qed.

Lemma within_replace_background_color (input_path output_path : string)
    (color : Color) :
  P output_path ->
  keeps (same_cache_within P)
    (replace_background_color image_decode input_path output_path color).
Proof.
  intros Hout.
  apply keeps_bind; [apply same_cache_within_trans|apply within_image_open|].
  intros image.
  apply keeps_bind; [apply same_cache_within_trans|by apply within_image_save|].
  intros _. apply keeps_ret, same_cache_within_refl.
Qed.

Lemma within_on_remove_clicked (uploaded_name filename bg_color : string)
    (image_resized : Image) :
  P temp_resized_path ->
  P (rembg_img_path_of filename) ->
  keeps (grows_within P)
    (on_remove_clicked image_decode rembg_remove
       uploaded_name filename image_resized bg_color).
Proof.
  intros Htemp Hout. unfold on_remove_clicked.
  fold temp_resized_path. fold (rembg_img_path_of filename).
  pose proof (grows_within_trans P) as Htrans.
  apply keeps_bind; [done|apply keeps_same_cache_grows, within_log|]. intros _.
  apply keeps_bind;
    [done|by apply keeps_same_cache_grows, within_image_save|]. intros _.
  apply keeps_bind; [done|apply keeps_same_cache_grows, within_log|]. intros _.
  apply keeps_bind; [done|by apply within_remove_background|].
  intros final_img_path.
  apply keeps_bind; [done|apply keeps_same_cache_grows, within_log|]. intros _.
  apply keeps_bind; [done| |].
  - destruct (negb (bg_color =? "#FFFFFF")%string).
    + destruct (color_of_hex bg_color) as [color|];
        [|apply keeps_raise, grows_within_refl].
      apply keeps_bind;
        [done|by apply keeps_same_cache_grows, within_replace_background_color|].
      intros _. apply keeps_same_cache_grows, within_st_image_path.
    + apply keeps_same_cache_grows, within_st_image_path.
  - intros _.
    apply keeps_bind; [done|apply keeps_same_cache_grows, within_read_file|].
    intros data.
    apply keeps_bind; [done|apply keeps_same_cache_grows, within_log|]. intros _.
    apply keeps_same_cache_grows, within_log.
Qed.

End Within.

Section WithinMain.

Variable P : string -> Prop.
Variable secure_filename : string -> string.
Variable image_decode : list byte -> option Image.
Variable resize : Image -> Z * Z -> Image.
Variable rotate : Image -> Z -> Image.
Variable rembg_remove : Image -> option Image.

Lemma within_process_file (uploaded_file : UploadedFile) (ui : Widgets) :
  Forall P (paths_of secure_filename uploaded_file) ->
  keeps (grows_within P)
    (process_file secure_filename image_decode resize rotate rembg_remove
       uploaded_file ui).
Proof.
  intros Hpaths. unfold paths_of in Hpaths.
  apply Forall_cons in Hpaths as [Hfile Hpaths].
  apply Forall_cons in Hpaths as [Htemp Hpaths].
  apply Forall_cons in Hpaths as [Hout _].
  pose proof (grows_within_trans P) as Htrans.
  unfold process_file.
  apply keeps_bind;
    [done|apply keeps_same_cache_grows, within_st_image_upload|]. intros _.
  apply keeps_bind;
    [done|apply keeps_same_cache_grows, within_check_file_size|]. intros ok.
  destruct (negb ok); [apply keeps_ret, grows_within_refl|].
  apply keeps_bind;
    [done|by apply keeps_same_cache_grows, within_write_file|]. intros _.
  apply keeps_bind; [done| |].
  { destruct (image_decode (buffer uploaded_file));
      [apply keeps_ret|apply keeps_raise]; apply grows_within_refl. }
  intros image.
  apply keeps_bind;
    [done|apply keeps_same_cache_grows, within_st_image_pil|]. intros _.
  apply keeps_bind;
    [done|apply keeps_same_cache_grows, within_st_image_pil|]. intros _.
  apply keeps_bind;
    [done|apply keeps_same_cache_grows, within_crop_step|]. intros image_resized.
  destruct (button ui); [|apply keeps_ret, grows_within_refl].
  by apply within_on_remove_clicked.
Qed.

Lemma within_for_uploaded_files (uploaded_files : list (UploadedFile * Widgets)) :
  Forall (fun fu => Forall P (paths_of secure_filename fu.1)) uploaded_files ->
  keeps (grows_within P)
    (for_uploaded_files secure_filename image_decode resize rotate rembg_remove
       uploaded_files).
Proof.
  induction uploaded_files as [|[f ui] rest IH]; intros Hall; simpl.
  - apply keeps_ret, grows_within_refl.
  - apply Forall_cons in Hall as [Hf Hrest].
    apply keeps_bind; [apply grows_within_trans|by apply within_process_file|].
    intros _. by apply IH.
Qed.

Lemma within_main (uploaded_files : list (UploadedFile * Widgets)) :
  Forall (fun fu => Forall P (paths_of secure_filename fu.1)) uploaded_files ->
  keeps (grows_within P)
    (main secure_filename image_decode resize rotate rembg_remove uploaded_files).
Proof.
  intros Hall. unfold main.
  apply keeps_bind;
    [apply grows_within_trans|apply keeps_same_cache_grows, within_log|].
  intros _. destruct uploaded_files as [|fu rest].
  - apply keeps_same_cache_grows, within_log.
  - by apply within_for_uploaded_files.
Qed.

End WithinMain.

(** X8: a run of [main] never drops or changes a cached result, whatever it
    is given and whether it ends normally or in an exception. *)
Theorem main_never_evicts_the_cache
    (secure_filename : string -> string) (image_decode : list byte -> option Image)
    (resize : Image -> Z * Z -> Image) (rotate : Image -> Z -> Image)
    (rembg_remove : Image -> option Image)
    (uploaded_files : list (UploadedFile * Widgets)) (w : World)
    (input_path output_path v : string) :
  cache w !! (input_path, output_path) = Some v ->
  cache (world_of (main secure_filename image_decode resize rotate rembg_remove
                     uploaded_files w))
    !! (input_path, output_path) = Some v.
Proof.
  intros Hkey.
  destruct (within_main (fun _ => True) secure_filename image_decode resize rotate
              rembg_remove uploaded_files) with (w := w) as [Hcache _].
  - apply Forall_true. intros fu. by apply Forall_true.
  - by eapply lookup_weaken.
Qed.

(** X9: a run of [main] never deletes a file of the working directory: what
    was there before is there afterwards, possibly overwritten. *)
Theorem main_never_deletes_a_file
    (secure_filename : string -> string) (image_decode : list byte -> option Image)
    (resize : Image -> Z * Z -> Image) (rotate : Image -> Z -> Image)
    (rembg_remove : Image -> option Image)
    (uploaded_files : list (UploadedFile * Widgets)) (w : World)
    (path : string) (c : FileContent) :
  fs w !! path = Some c ->
  is_Some (fs (world_of (main secure_filename image_decode resize rotate
                           rembg_remove uploaded_files w)) !! path).
Proof.
  intros Hfile.
  destruct (within_main (fun _ => True) secure_filename image_decode resize rotate
              rembg_remove uploaded_files) with (w := w) as [_ [Hdom _]].
  - apply Forall_true. intros fu. by apply Forall_true.
  - apply Hdom. by eexists.
Qed.

Lemma contains_first_split (c sep : ascii) (s : string) :
  Str.contains c s = false -> Str.contains c (Str.first (Str.split sep s)) = false.
Proof.
  induction s as [|c' s IH]; simpl; [done|].
  intros [Hc Hs]%orb_false_iff.
  destruct (Ascii.eqb c' sep); simpl; [done|].
  specialize (IH Hs).
  destruct (Str.split sep s) as [|h t]; simpl in *; by rewrite Hc.
Qed.

Lemma os_path_join_inside (n : string) :
  Str.contains "/" n = false ->
  os_path_join UPLOAD_FOLDER n = UPLOAD_FOLDER +:+ "/" +:+ n.
Proof.
  destruct n as [|c n]; [done|]. simpl.
  intros [Hc _]%orb_false_iff.
  destruct c as [[] [] [] [] [] [] [] []]; try done.
Qed.

Lemma paths_of_inside (secure_filename : string -> string) (file : UploadedFile) :
  Str.contains "/" (secure_filename (name file)) = false ->
  Forall in_upload_folder (paths_of secure_filename file).
Proof.
  intros Hname. unfold paths_of. repeat apply Forall_cons_2; [| | |done].
  - exists (secure_filename (name file)). split; [done|].
    by apply os_path_join_inside.
  - by exists "temp_resized.png".
  - exists (rembg_img_name_of (secure_filename (name file))).
    assert (Str.contains "/" (rembg_img_name_of (secure_filename (name file))) = false)
      as Hout.
    { unfold rembg_img_name_of. rewrite contains_app.
      by rewrite contains_first_split. }
    split; [done|]. by apply os_path_join_inside.
Qed.

(** X10: a run of [main] writes to three files per upload and to no other:
    the upload's copy under its sanitized name, the temporary file and the
    output file.  When the sanitized names hold no slash, all three lie
    directly inside "static/uploads".  Every other path, inside the folder or
    outside, holds after the run what it held before. *)
Theorem main_writes_only_inside_the_upload_folder
    (secure_filename : string -> string) (image_decode : list byte -> option Image)
    (resize : Image -> Z * Z -> Image) (rotate : Image -> Z -> Image)
    (rembg_remove : Image -> option Image)
    (uploaded_files : list (UploadedFile * Widgets)) (w : World) :
  Forall (fun fu : UploadedFile * Widgets =>
            Str.contains "/" (secure_filename (name fu.1)) = false) uploaded_files ->
  Forall (fun fu : UploadedFile * Widgets =>
            Forall in_upload_folder (paths_of secure_filename fu.1)) uploaded_files /\
  forall path,
    Forall (fun fu : UploadedFile * Widgets =>
              path ∉ paths_of secure_filename fu.1) uploaded_files ->
    fs (world_of (main secure_filename image_decode resize rotate rembg_remove
                    uploaded_files w)) !! path
    = fs w !! path.
Proof.
  intros Hnames. split.
  { eapply Forall_impl; [exact Hnames|]. intros fu. apply paths_of_inside. }
  intros path Hpath.
  destruct (within_main
              (fun p => Exists (fun fu : UploadedFile * Widgets =>
                                  p ∈ paths_of secure_filename fu.1) uploaded_files)
              secure_filename image_decode resize rotate
              rembg_remove uploaded_files) with (w := w) as [_ [_ Hfiles]].
  - apply Forall_forall. intros fu Hfu. apply Forall_forall. intros p Hp.
    apply Exists_exists. by exists fu.
  - apply Hfiles. intros (fu & Hfu & Hin)%Exists_exists.
    by apply (proj1 (Forall_forall _ _) Hpath fu Hfu).
Qed.

(** ** Before the button is pressed *)

Lemma quiet_refl (w : World) : quiet w w.
Proof. by repeat split. Qed.

Lemma quiet_trans (w1 w2 w3 : World) : quiet w1 w2 -> quiet w2 w3 -> quiet w1 w3.
Proof. intros (? & ? & ?) (? & ? & ?). repeat split; congruence. Qed.

Lemma quiet_log (e : Event) :
  remove_calls [e] = [] -> downloads [e] = [] -> keeps quiet (log e).
Proof.
  intros Hcalls Hdown w. split; [done|]. simpl.
  by rewrite remove_calls_app, downloads_app, Hcalls, Hdown, !app_nil_r.
Qed.

Lemma quiet_st_image_pil (im : Image) (caption : string) :
  keeps quiet (st_image_pil im caption).
Proof.
  unfold st_image_pil. destruct (no_pixels im).
  - apply keeps_raise, quiet_refl.
  - by apply quiet_log.
Qed.

Lemma quiet_crop_step (image_resized : Image) (ui : Widgets) :
  keeps quiet (crop_step image_resized ui).
Proof.
  unfold crop_step. destruct (crop ui); [|apply keeps_ret, quiet_refl].
  destruct (Pil.crop _ _) as [[]|cropped]; try (apply keeps_raise, quiet_refl).
  apply keeps_bind; [apply quiet_trans|apply quiet_st_image_pil|].
  intros _. apply keeps_ret, quiet_refl.
Qed.

Lemma quiet_process_file
    (secure_filename : string -> string) (image_decode : list byte -> option Image)
    (resize : Image -> Z * Z -> Image) (rotate : Image -> Z -> Image)
    (rembg_remove : Image -> option Image)
    (uploaded_file : UploadedFile) (ui : Widgets) :
  button ui = false ->
  keeps quiet
    (process_file secure_filename image_decode resize rotate rembg_remove
       uploaded_file ui).
Proof.
  intros Hbutton. unfold process_file. rewrite Hbutton.
  apply keeps_bind; [apply quiet_trans| |].
  { unfold st_image_upload. destruct (image_decode (buffer uploaded_file)).
    - by apply quiet_log.
    - apply keeps_raise, quiet_refl. }
  intros _. apply keeps_bind; [apply quiet_trans| |].
  { unfold check_file_size.
    destruct (MAX_FILE_SIZE <? Z.of_nat (length (buffer uploaded_file))).
    - apply keeps_bind; [apply quiet_trans|by apply quiet_log|].
      intros _. apply keeps_ret, quiet_refl.
    - apply keeps_ret, quiet_refl. }
  intros ok. destruct (negb ok); [apply keeps_ret, quiet_refl|].
  apply keeps_bind; [apply quiet_trans| |].
  { intros w. by repeat split. }
  intros _. apply keeps_bind; [apply quiet_trans| |].
  { destruct (image_decode (buffer uploaded_file));
      [apply keeps_ret|apply keeps_raise]; apply quiet_refl. }
  intros image.
  apply keeps_bind; [apply quiet_trans|apply quiet_st_image_pil|]. intros _.
  apply keeps_bind; [apply quiet_trans|apply quiet_st_image_pil|]. intros _.
  apply keeps_bind; [apply quiet_trans|apply quiet_crop_step|]. intros _.
  apply keeps_ret, quiet_refl.
Qed.

Lemma quiet_main
    (secure_filename : string -> string) (image_decode : list byte -> option Image)
    (resize : Image -> Z * Z -> Image) (rotate : Image -> Z -> Image)
    (rembg_remove : Image -> option Image)
    (uploaded_files : list (UploadedFile * Widgets)) :
  Forall (fun fu : UploadedFile * Widgets => button fu.2 = false) uploaded_files ->
  keeps quiet
    (main secure_filename image_decode resize rotate rembg_remove uploaded_files).
Proof.
  intros Hbuttons. unfold main.
  apply keeps_bind; [apply quiet_trans|by apply quiet_log|]. intros _.
  destruct uploaded_files as [|fu rest]; [by apply quiet_log|].
  induction Hbuttons as [|[f ui] rest' Hf Hrest IH]; simpl.
  - apply keeps_ret, quiet_refl.
  - apply keeps_bind; [apply quiet_trans|by apply quiet_process_file|].
    intros _. apply IH.
Qed.

(** X11: as long as no button is pressed, a run of [main] calls the
    segmentation model for no file, offers nothing for download and leaves
    the cache as it was, whatever else happens in it. *)
Theorem nothing_is_segmented_before_the_button
    (secure_filename : string -> string) (image_decode : list byte -> option Image)
    (resize : Image -> Z * Z -> Image) (rotate : Image -> Z -> Image)
    (rembg_remove : Image -> option Image)
    (uploaded_files : list (UploadedFile * Widgets)) (w : World) :
  Forall (fun fu : UploadedFile * Widgets => button fu.2 = false) uploaded_files ->
  cache (world_of (main secure_filename image_decode resize rotate rembg_remove
                     uploaded_files w)) = cache w /\
  remove_calls (trace (world_of (main secure_filename image_decode resize rotate
                                   rembg_remove uploaded_files w)))
  = remove_calls (trace w) /\
  downloads (trace (world_of (main secure_filename image_decode resize rotate
                                rembg_remove uploaded_files w)))
  = downloads (trace w).
Proof.
  intros Hbuttons.
  exact (quiet_main secure_filename image_decode resize rotate rembg_remove
           uploaded_files Hbuttons w).
Qed.

(** ** The crop block, continued *)

Lemma bind_singleton {A B} (g : A -> B) (l : list A) :
  l ≫= (fun x => [g x]) = g <$> l.
Proof. induction l as [|a l IH]; [done|]. by rewrite bind_cons, fmap_cons, IH. Qed.

Lemma crop_row (im : Image) (y : nat) :
  Z.of_nat (length (data im)) = width im * height im ->
  0 <= width im ->
  Z.of_nat y < height im ->
  (fun x => getpixel im x (Z.of_nat y)) <$> seqZ 0 (width im)
  = take (Z.to_nat (width im)) (drop (y * Z.to_nat (width im)) (data im)).
Proof.
  intros Hlen Hw Hy. apply list_eq. intros i.
  rewrite list_lookup_fmap.
  destruct (decide (Z.of_nat i < width im)) as [Hi|Hi].
  - rewrite lookup_seqZ_lt by done. simpl.
    rewrite lookup_take_lt by lia. rewrite lookup_drop.
    unfold getpixel. rewrite bool_decide_eq_true_2 by lia.
    replace (Z.to_nat (Z.of_nat y * width im + (0 + Z.of_nat i)))
      with (y * Z.to_nat (width im) + i)%nat by nia.
    destruct (lookup_lt_is_Some_2 (data im) (y * Z.to_nat (width im) + i)%nat)
      as [p Hp]; [nia|].
    rewrite Hp. f_equal.
    exact (f_equal (default ((0, 0, 0), 0)) Hp).
  - rewrite lookup_seqZ_ge by lia. simpl.
    symmetry. apply lookup_ge_None. rewrite length_take. lia.
Qed.

Lemma crop_rows (im : Image) (n k : nat) :
  Z.of_nat (length (data im)) = width im * height im ->
  0 <= width im ->
  Z.of_nat (k + n) <= height im ->
  (y ← seqZ (Z.of_nat k) (Z.of_nat n);
   x ← seqZ 0 (width im);
   [getpixel im x y])
  = take (n * Z.to_nat (width im)) (drop (k * Z.to_nat (width im)) (data im)).
Proof.
  intros Hlen Hw. revert k. induction n as [|n IH]; intros k Hk.
  - done.
  - rewrite (seqZ_cons (Z.of_nat k) (Z.of_nat (S n))) by lia. rewrite bind_cons.
    replace (Z.pred (Z.of_nat (S n))) with (Z.of_nat n) by lia.
    replace (Z.succ (Z.of_nat k)) with (Z.of_nat (S k)) by lia.
    rewrite IH by lia.
    rewrite bind_singleton, crop_row by (done || lia).
    replace (S k * Z.to_nat (width im))%nat
      with (k * Z.to_nat (width im) + Z.to_nat (width im))%nat by lia.
    rewrite <- drop_drop.
    rewrite take_take_drop. f_equal.
Qed.

Lemma crop_whole (im : Image) :
  valid_image im -> Pil.crop im (0, 0, width im, height im) = inr im.
Proof.
  intros (Hw & Hh & Hlen & _). unfold Pil.crop.
  destruct (Z.ltb_spec (width im) 0); [lia|].
  destruct (Z.ltb_spec (height im) 0); [lia|].
  f_equal. apply image_eq; simpl; [done|lia|lia|].
  rewrite !Z.sub_0_r.
  pose proof (crop_rows im (Z.to_nat (height im)) 0) as Hrows.
  rewrite Z2Nat.id in Hrows by lia.
  change (Z.of_nat 0) with 0 in Hrows.
  rewrite Hrows by (done || lia). simpl.
  apply take_ge. nia.
Qed.

(** X12: with "Crop Image" ticked and the four sliders where they start
    (0, 0, width, height), the crop block hands on the image it was given,
    pixel for pixel. *)
Theorem crop_step_with_untouched_sliders (image_resized : Image) (ui : Widgets)
    (w : World) :
  valid_image image_resized ->
  crop ui = true ->
  crop_left ui = 0 -> crop_upper ui = 0 ->
  crop_right ui = width image_resized ->
  crop_lower ui = height image_resized ->
  crop_step image_resized ui w
  = Ok image_resized
      (with_events [StImage (ShownImage image_resized) "Cropped Image"] w).
Proof.
  intros Hvalid Hcrop Hl Hu Hr Hlo. unfold crop_step, st_image_pil.
  rewrite Hcrop, Hl, Hu, Hr, Hlo.
  rewrite (crop_whole _ Hvalid), (valid_image_has_pixels _ Hvalid).
  reflexivity.
Qed.

(** ** The button's block, continued *)

Lemma os_path_join_cases (a : string) (c : ascii) (s : string) :
  os_path_join a (String c s)
  = if Ascii.eqb c "/" then String c s else a +:+ "/" +:+ String c s.
Proof. destruct c as [[] [] [] [] [] [] [] []]; reflexivity. Qed.

Lemma no_rembg_name_is_the_temp_name (s : string) :
  s +:+ "_rembg.png" <> "temp_resized.png".
Proof.
  intros H.
  do 16 (destruct s as [|? s]; simpl in H; [discriminate|]; injection H as _ H).
  destruct s; discriminate.
Qed.

(** The output path of no file is the path of the temporary file. *)
Lemma rembg_img_path_is_not_temp (filename : string) :
  rembg_img_path_of filename <> temp_resized_path.
Proof.
  unfold rembg_img_path_of, temp_resized_path, rembg_img_name_of.
  pose proof (no_rembg_name_is_the_temp_name (Str.first (Str.split "." filename)))
    as Hname.
  destruct (Str.first (Str.split "." filename)) as [|c s]; [discriminate|].
  change (String c s +:+ "_rembg.png") with (String c (s +:+ "_rembg.png")) in *.
  rewrite os_path_join_cases.
  destruct (Ascii.eqb_spec c "/") as [->|Hc]; [discriminate|].
  intros H. apply Hname. simpl in H. injection H as Hc' Hs. by rewrite Hc', Hs.
Qed.

(** The run of the button's block on a cache hit with the default colour. *)
Lemma on_remove_clicked_hit_run
    (image_decode : list byte -> option Image) (rembg_remove : Image -> option Image)
    (w : World) (uploaded_name filename v : string) (image_resized : Image)
    (c : FileContent) :
  cache w !! (temp_resized_path, rembg_img_path_of filename) = Some v ->
  no_pixels image_resized = false ->
  fs w !! rembg_img_path_of filename = Some c ->
  on_remove_clicked image_decode rembg_remove
    uploaded_name filename image_resized "#FFFFFF" w
  = Ok tt
      (mkWorld (<[temp_resized_path := FPng image_resized]> (fs w)) (cache w)
         (trace w ++
          [StProgress 0; StProgress 50; StProgress 100;
           StImage (ShownFile (rembg_img_path_of filename) c)
             ("Processed Image: " +:+ filename);
           StDownloadButton ("Download Processed Image " +:+ filename) c
             (rembg_img_name_of filename) "image/png";
           LoggingInfo ("Image processed and downloaded: " +:+ uploaded_name)])).
Proof.
  intros Hhit Hpixels Hfile.
  unfold on_remove_clicked.
  fold temp_resized_path. fold (rembg_img_path_of filename).
  pose proof (rembg_img_path_is_not_temp filename) as Hne.
  set (out := rembg_img_path_of filename) in *.
  set (tmp := temp_resized_path) in *.
  rewrite bind_run; simpl.
  rewrite bind_run. unfold image_save at 1. rewrite Hpixels. simpl.
  rewrite bind_run; simpl.
  rewrite bind_run.
  rewrite (remove_background_hit _ _ _ tmp out v) by exact Hhit.
  simpl. do 2 (rewrite bind_run; simpl).
  unfold st_image_path. rewrite bind_run.
  unfold read_file at 1; simpl.
  rewrite lookup_insert_ne by (by intros Heq; apply Hne).
  rewrite Hfile. simpl.
  rewrite bind_run. unfold read_file; simpl.
  rewrite lookup_insert_ne by (by intros Heq; apply Hne).
  rewrite Hfile. simpl.
  rewrite bind_run; simpl. unfold log; simpl.
  rewrite <- !app_assoc. reflexivity.
Qed.

(** X13: when [remove_background] finds its two paths in the cache and the
    picker holds "#FFFFFF", the pressed button delivers the file that lies at
    the output path as it is: the edited image is saved to the temporary
    file, the model is not called and the output file is not written. *)
Theorem cached_output_is_delivered_as_it_lies
    (image_decode : list byte -> option Image) (rembg_remove : Image -> option Image)
    (w : World) (uploaded_name filename v : string) (image_resized : Image)
    (c : FileContent) :
  cache w !! (temp_resized_path, rembg_img_path_of filename) = Some v ->
  no_pixels image_resized = false ->
  fs w !! rembg_img_path_of filename = Some c ->
  on_remove_clicked image_decode rembg_remove
    uploaded_name filename image_resized "#FFFFFF" w
  = Ok tt
      (mkWorld (<[temp_resized_path := FPng image_resized]> (fs w)) (cache w)
         (trace w ++
          [StProgress 0; StProgress 50; StProgress 100;
           StImage (ShownFile (rembg_img_path_of filename) c)
             ("Processed Image: " +:+ filename);
           StDownloadButton ("Download Processed Image " +:+ filename) c
             (rembg_img_name_of filename) "image/png";
           LoggingInfo ("Image processed and downloaded: " +:+ uploaded_name)])).
Proof.
  intros Hhit Hpixels Hfile.
  by apply (on_remove_clicked_hit_run image_decode rembg_remove w uploaded_name
              filename v).
Qed.

(** X14: two files whose sanitized names agree up to the first dot share the
    output path and the cache entry.  When the button is pressed for one and
    then for the other, both with the default colour, the second is given the
    first one's segmented image, and the model never sees the second
    image. *)
Theorem same_stem_gets_the_first_result
    (image_decode : list byte -> option Image) (rembg_remove : Image -> option Image)
    (w : World) (name_a name_b stem rest_a rest_b : string)
    (image_a image_b seg : Image) :
  Str.contains "." stem = false ->
  cache w !! (temp_resized_path, rembg_img_path_of (stem +:+ "." +:+ rest_a)) = None ->
  no_pixels image_a = false ->
  no_pixels image_b = false ->
  rembg_remove image_a = Some seg ->
  no_pixels seg = false ->
  exists w1 w2,
    on_remove_clicked image_decode rembg_remove
      name_a (stem +:+ "." +:+ rest_a) image_a "#FFFFFF" w = Ok tt w1 /\
    on_remove_clicked image_decode rembg_remove
      name_b (stem +:+ "." +:+ rest_b) image_b "#FFFFFF" w1 = Ok tt w2 /\
    downloads (trace w2)
    = (downloads (trace w)
       ++ [(stem +:+ "_rembg.png", FPng seg); (stem +:+ "_rembg.png", FPng seg)])%list /\
    remove_calls (trace w2) = (remove_calls (trace w) ++ [image_a])%list.
Proof.
  intros Hstem Hmiss Ha Hb Hseg Hsegpixels.
  assert (rembg_img_path_of (stem +:+ "." +:+ rest_b)
          = rembg_img_path_of (stem +:+ "." +:+ rest_a)) as Hsame.
  { unfold rembg_img_path_of. by rewrite !rembg_img_name_of_cut. }
  eexists. eexists.
  split.
  { apply (on_remove_clicked_run image_decode rembg_remove w name_a _ "#FFFFFF"
             image_a seg (255, 255, 255)); try done. }
  split.
  { apply (on_remove_clicked_hit_run image_decode rembg_remove _ name_b
             _ (rembg_img_path_of (stem +:+ "." +:+ rest_a)) image_b (FPng seg)).
    - simpl. rewrite Hsame. apply lookup_insert_eq.
    - done.
    - simpl. rewrite Hsame. apply lookup_insert_eq. }
  simpl. rewrite !downloads_app, !remove_calls_app, !rembg_img_name_of_cut by done.
  simpl. by rewrite <- !app_assoc.
Qed.

(** ** One upload from end to end *)

(** X15: one upload that opens as an image and passes the size check, with
    "Crop Image" off, the button pressed and nothing cached for it, runs the
    whole pipeline in this order: title, original, resized and rotated
    previews, progress 0, temporary file, progress 50, one call of the model
    on the resized and rotated image, progress 100, the result shown, the
    download offered, the log line.  The upload is stored under its sanitized
    name, and the result under that name cut at the first dot with
    "_rembg.png". *)
Theorem main_single_upload
    (secure_filename : string -> string) (image_decode : list byte -> option Image)
    (resize : Image -> Z * Z -> Image) (rotate : Image -> Z -> Image)
    (rembg_remove : Image -> option Image)
    (uploaded_file : UploadedFile) (ui : Widgets) (im seg : Image) (color : Color)
    (w : World) :
  let filename := secure_filename (name uploaded_file) in
  let resized := resize im (resize_width ui, resize_height ui) in
  let edited := rotate resized (rotation_angle ui) in
  let final := final_image (bg_color ui) seg color in
  image_decode (buffer uploaded_file) = Some im ->
  Z.of_nat (length (buffer uploaded_file)) <= MAX_FILE_SIZE ->
  crop ui = false ->
  button ui = true ->
  no_pixels resized = false ->
  no_pixels edited = false ->
  cache w !! (temp_resized_path, rembg_img_path_of filename) = None ->
  rembg_remove edited = Some seg ->
  no_pixels seg = false ->
  (bg_color ui <> "#FFFFFF" -> color_of_hex (bg_color ui) = Some color) ->
  main secure_filename image_decode resize rotate rembg_remove
    [(uploaded_file, ui)] w
  = Ok tt
      (mkWorld
         (<[rembg_img_path_of filename := FPng final]>
            (<[temp_resized_path := FPng edited]>
               (<[os_path_join UPLOAD_FOLDER filename := FRaw (buffer uploaded_file)]>
                  (fs w))))
         (<[(temp_resized_path, rembg_img_path_of filename)
              := rembg_img_path_of filename]> (cache w))
         (trace w ++
          [StTitle "Background Remover with Streamlit";
           StImage (ShownUpload uploaded_file)
             ("Original Image: " +:+ name uploaded_file);
           StImage (ShownImage resized) ("Resized Image: " +:+ filename);
           StImage (ShownImage edited) "Rotated Image";
           StProgress 0; StProgress 50; RembgRemove edited; StProgress 100;
           StImage (ShownFile (rembg_img_path_of filename) (FPng final))
             (final_caption (bg_color ui) filename);
           StDownloadButton ("Download Processed Image " +:+ filename)
             (FPng final) (rembg_img_name_of filename) "image/png";
           LoggingInfo ("Image processed and downloaded: " +:+ name uploaded_file)])).
Proof.
  intros filename resized edited final
    Himage Hsize Hcrop Hbutton Hresized Hedited Hmiss Hseg Hsegpixels Hcolor.
  unfold main. rewrite bind_run. simpl. rewrite bind_run.
  rewrite (process_file_pressed secure_filename image_decode resize rotate
             rembg_remove uploaded_file ui im) by done.
  rewrite (on_remove_clicked_run image_decode rembg_remove _ _ _ _ _ seg color)
    by done.
  simpl. rewrite <- !app_assoc. reflexivity.
Qed.


(** ** The further properties on concrete data *)

Lemma color_of_hex_valid_witness : valid_color Sample.green.
Proof.
  apply (color_of_hex_valid "#00FF00" Sample.green). reflexivity.
Defined.

Lemma remove_background_failure_is_not_cached_witness :
  exists w1,
    remove_background Sample.decode Sample.segment
      "static/uploads/in.png" "static/uploads/out.png"
      (with_file "static/uploads/in.png" (FPng Sample.column) empty_world)
    = Raise RembgError w1 /\
    fs w1 = fs (with_file "static/uploads/in.png" (FPng Sample.column) empty_world) /\
    cache w1
    = cache (with_file "static/uploads/in.png" (FPng Sample.column) empty_world) /\
    remove_calls (trace w1)
    = (remove_calls
         (trace (with_file "static/uploads/in.png" (FPng Sample.column) empty_world))
       ++ [Sample.column])%list /\
    exists w2,
      remove_background Sample.decode Sample.segment
        "static/uploads/in.png" "static/uploads/out.png" w1
      = Raise RembgError w2 /\
      remove_calls (trace w2)
      = (remove_calls
           (trace (with_file "static/uploads/in.png" (FPng Sample.column) empty_world))
         ++ [Sample.column; Sample.column])%list.
Proof.
  apply (remove_background_failure_is_not_cached Sample.decode Sample.segment
           (with_file "static/uploads/in.png" (FPng Sample.column) empty_world)
           "static/uploads/in.png" "static/uploads/out.png" Sample.column).
  - reflexivity.
  - reflexivity.
  - reflexivity.
Defined.

Lemma remove_background_without_input_witness :
  remove_background Sample.decode Sample.segment
    "static/uploads/in.png" "static/uploads/out.png" empty_world
  = match cache empty_world !! ("static/uploads/in.png", "static/uploads/out.png") with
    | Some v => Ok v empty_world
    | None => Raise (FileNotFoundError "static/uploads/in.png") empty_world
    end.
Proof.
  apply (remove_background_without_input Sample.decode Sample.segment empty_world
           "static/uploads/in.png" "static/uploads/out.png").
  reflexivity.
Defined.

Lemma opaque_valid : valid_image Sample.opaque.
Proof.
  unfold valid_image, Sample.opaque; simpl. repeat split; try lia.
  repeat constructor; simpl; lia.
Defined.

Lemma on_green_valid : valid_image Sample.on_green.
Proof.
  unfold valid_image, Sample.on_green; simpl. repeat split; try lia.
  repeat constructor; simpl; lia.
Defined.

Lemma replace_background_color_on_rgb_witness :
  replace_background_color Sample.decode
    "static/uploads/in.png" "static/uploads/out.png" Sample.green
    (with_file "static/uploads/in.png" (FPng Sample.opaque) empty_world)
  = Ok "static/uploads/out.png"
      (with_file "static/uploads/out.png"
         (FPng (mkImage RGBA (width Sample.opaque) (height Sample.opaque)
                  (map (fun p : Pixel => (p.1, 255)) (data Sample.opaque))))
         (with_file "static/uploads/in.png" (FPng Sample.opaque) empty_world)).
Proof.
  apply (replace_background_color_on_rgb Sample.decode
           (with_file "static/uploads/in.png" (FPng Sample.opaque) empty_world)
           "static/uploads/in.png" "static/uploads/out.png" Sample.green
           Sample.opaque).
  - reflexivity.
  - reflexivity.
  - exact opaque_valid.
Defined.

Lemma replace_background_color_nothing_to_replace_witness :
  replace_background_color Sample.decode
    "static/uploads/in.png" "static/uploads/out.png" Sample.green
    (with_file "static/uploads/in.png" (FPng Sample.on_green) empty_world)
  = Ok "static/uploads/out.png"
      (with_file "static/uploads/out.png" (FPng Sample.on_green)
         (with_file "static/uploads/in.png" (FPng Sample.on_green) empty_world)).
Proof.
  apply (replace_background_color_nothing_to_replace Sample.decode
           (with_file "static/uploads/in.png" (FPng Sample.on_green) empty_world)
           "static/uploads/in.png" "static/uploads/out.png" Sample.green
           Sample.on_green).
  - reflexivity.
  - reflexivity.
  - exact on_green_valid.
  - repeat constructor; discriminate.
Defined.

Lemma main_never_evicts_the_cache_witness :
  cache (world_of (main Sample.secure_filename Sample.decode Sample.resize
                     Sample.rotate Sample.segment
                     [(Sample.photo, Sample.widgets "#FFFFFF" true)]
                     Sample.after_green))
    !! ("static/uploads/temp_resized.png", "static/uploads/photo_rembg.png")
  = Some "static/uploads/photo_rembg.png".
Proof.
  apply (main_never_evicts_the_cache Sample.secure_filename Sample.decode
           Sample.resize Sample.rotate Sample.segment
           [(Sample.photo, Sample.widgets "#FFFFFF" true)] Sample.after_green
           "static/uploads/temp_resized.png" "static/uploads/photo_rembg.png"
           "static/uploads/photo_rembg.png").
  reflexivity.
Defined.

Lemma main_never_deletes_a_file_witness :
  is_Some (fs (world_of (main Sample.secure_filename Sample.decode Sample.resize
                           Sample.rotate Sample.segment
                           [(Sample.photo, Sample.widgets "#FFFFFF" true)]
                           Sample.world))
             !! "static/uploads/in.png").
Proof.
  apply (main_never_deletes_a_file Sample.secure_filename Sample.decode
           Sample.resize Sample.rotate Sample.segment
           [(Sample.photo, Sample.widgets "#FFFFFF" true)] Sample.world
           "static/uploads/in.png" (FPng Sample.picture)).
  reflexivity.
Defined.

Lemma main_writes_only_inside_the_upload_folder_witness :
  fs (world_of (main Sample.secure_filename Sample.decode Sample.resize
                  Sample.rotate Sample.segment
                  [(Sample.photo, Sample.widgets "#00FF00" true)]
                  (with_file "static/uploads/other_rembg.png" (FPng Sample.on_white)
                     empty_world)))
    !! "static/uploads/other_rembg.png"
  = Some (FPng Sample.on_white).
Proof.
  pose proof (main_writes_only_inside_the_upload_folder Sample.secure_filename
                Sample.decode Sample.resize Sample.rotate Sample.segment
                [(Sample.photo, Sample.widgets "#00FF00" true)]
                (with_file "static/uploads/other_rembg.png" (FPng Sample.on_white)
                   empty_world)) as H.
  destruct H as [_ Hrest].
  - repeat constructor.
  - rewrite (Hrest "static/uploads/other_rembg.png"); [reflexivity|].
    repeat constructor.
    intros Hin. repeat (apply elem_of_cons in Hin as [Hin|Hin]; [discriminate Hin|]).
    by apply elem_of_nil in Hin.
Defined.

Lemma nothing_is_segmented_before_the_button_witness :
  cache (world_of (main Sample.secure_filename Sample.decode Sample.resize
                     Sample.rotate Sample.segment
                     [(Sample.photo, Sample.widgets "#00FF00" false)] empty_world))
  = cache empty_world /\
  remove_calls (trace (world_of (main Sample.secure_filename Sample.decode
                                   Sample.resize Sample.rotate Sample.segment
                                   [(Sample.photo, Sample.widgets "#00FF00" false)]
                                   empty_world)))
  = remove_calls (trace empty_world) /\
  downloads (trace (world_of (main Sample.secure_filename Sample.decode
                                Sample.resize Sample.rotate Sample.segment
                                [(Sample.photo, Sample.widgets "#00FF00" false)]
                                empty_world)))
  = downloads (trace empty_world).
Proof.
  apply (nothing_is_segmented_before_the_button Sample.secure_filename
           Sample.decode Sample.resize Sample.rotate Sample.segment
           [(Sample.photo, Sample.widgets "#00FF00" false)] empty_world).
  repeat constructor.
Defined.

Lemma crop_step_with_untouched_sliders_witness :
  crop_step Sample.picture
    (mkWidgets 100 100 0 true 0 0 2 2 "Default Model" "#FFFFFF" false) empty_world
  = Ok Sample.picture
      (with_events [StImage (ShownImage Sample.picture) "Cropped Image"] empty_world).
Proof.
  apply (crop_step_with_untouched_sliders Sample.picture
           (mkWidgets 100 100 0 true 0 0 2 2 "Default Model" "#FFFFFF" false)
           empty_world).
  - exact Sample.picture_valid.
  - reflexivity.
  - reflexivity.
  - reflexivity.
  - reflexivity.
  - reflexivity.
Defined.

Lemma cached_output_is_delivered_as_it_lies_witness :
  on_remove_clicked Sample.decode Sample.segment
    "photo.jpg" "photo.jpg" Sample.picture "#FFFFFF" Sample.after_green
  = Ok tt
      (mkWorld (<[temp_resized_path := FPng Sample.picture]> (fs Sample.after_green))
         (cache Sample.after_green)
         (trace Sample.after_green ++
          [StProgress 0; StProgress 50; StProgress 100;
           StImage (ShownFile (rembg_img_path_of "photo.jpg") (FPng Sample.on_green))
             ("Processed Image: " +:+ "photo.jpg");
           StDownloadButton ("Download Processed Image " +:+ "photo.jpg")
             (FPng Sample.on_green) (rembg_img_name_of "photo.jpg") "image/png";
           LoggingInfo ("Image processed and downloaded: " +:+ "photo.jpg")])).
Proof.
  apply (cached_output_is_delivered_as_it_lies Sample.decode Sample.segment
           Sample.after_green "photo.jpg" "photo.jpg"
           "static/uploads/photo_rembg.png" Sample.picture (FPng Sample.on_green)).
  - reflexivity.
  - reflexivity.
  - reflexivity.
Defined.

Lemma same_stem_gets_the_first_result_witness :
  exists w1 w2,
    on_remove_clicked Sample.decode Sample.segment
      "photo.jpg" ("photo" +:+ "." +:+ "jpg") Sample.picture "#FFFFFF" empty_world
    = Ok tt w1 /\
    on_remove_clicked Sample.decode Sample.segment
      "photo.png" ("photo" +:+ "." +:+ "png") Sample.on_green "#FFFFFF" w1
    = Ok tt w2 /\
    downloads (trace w2)
    = (downloads (trace empty_world)
       ++ [("photo" +:+ "_rembg.png", FPng Sample.segmented);
           ("photo" +:+ "_rembg.png", FPng Sample.segmented)])%list /\
    remove_calls (trace w2)
    = (remove_calls (trace empty_world) ++ [Sample.picture])%list.
Proof.
  apply (same_stem_gets_the_first_result Sample.decode Sample.segment empty_world
           "photo.jpg" "photo.png" "photo" "jpg" "png"
           Sample.picture Sample.on_green Sample.segmented).
  - reflexivity.
  - reflexivity.
  - reflexivity.
  - reflexivity.
  - reflexivity.
  - reflexivity.
Defined.

Lemma main_single_upload_witness :
  main Sample.secure_filename Sample.decode Sample.resize Sample.rotate
    Sample.segment [(Sample.photo, Sample.uncropped "#00FF00" true)] empty_world
  = Ok tt
      (mkWorld
         (<[rembg_img_path_of (Sample.secure_filename (name Sample.photo))
              := FPng (final_image "#00FF00" Sample.segmented_resized Sample.green)]>
            (<[temp_resized_path := FPng Sample.resized]>
               (<[os_path_join UPLOAD_FOLDER (Sample.secure_filename (name Sample.photo))
                    := FRaw (buffer Sample.photo)]>
                  (fs empty_world))))
         (<[(temp_resized_path,
             rembg_img_path_of (Sample.secure_filename (name Sample.photo)))
              := rembg_img_path_of (Sample.secure_filename (name Sample.photo))]>
            (cache empty_world))
         (trace empty_world ++
          [StTitle "Background Remover with Streamlit";
           StImage (ShownUpload Sample.photo)
             ("Original Image: " +:+ name Sample.photo);
           StImage (ShownImage Sample.resized)
             ("Resized Image: " +:+ Sample.secure_filename (name Sample.photo));
           StImage (ShownImage Sample.resized) "Rotated Image";
           StProgress 0; StProgress 50; RembgRemove Sample.resized; StProgress 100;
           StImage
             (ShownFile (rembg_img_path_of (Sample.secure_filename (name Sample.photo)))
                (FPng (final_image "#00FF00" Sample.segmented_resized Sample.green)))
             (final_caption "#00FF00" (Sample.secure_filename (name Sample.photo)));
           StDownloadButton
             ("Download Processed Image "
              +:+ Sample.secure_filename (name Sample.photo))
             (FPng (final_image "#00FF00" Sample.segmented_resized Sample.green))
             (rembg_img_name_of (Sample.secure_filename (name Sample.photo)))
             "image/png";
           LoggingInfo ("Image processed and downloaded: " +:+ name Sample.photo)])).
Proof.
  apply (main_single_upload Sample.secure_filename Sample.decode Sample.resize
           Sample.rotate Sample.segment Sample.photo
           (Sample.uncropped "#00FF00" true) Sample.picture
           Sample.segmented_resized Sample.green empty_world).
  - reflexivity.
  - unfold MAX_FILE_SIZE; simpl; lia.
  - reflexivity.
  - reflexivity.
  - reflexivity.
  - reflexivity.
  - reflexivity.
  - reflexivity.
  - reflexivity.
  - intros _. reflexivity.
Defined.
